(** * Verification of the hybrid CV / technical chatbot backend

    A shallow embedding of [chatbot_api.py]: the keyword classifier
    [is_cv_question], the prompt builder [create_system_prompt], the
    completion gateway [chat_with_groq] with its per-session history, and the
    two POST handlers [chat] and [reset_chat].

    Modelling conventions.
    - Python [str] is [string]; the text functions ([lower], [strip], [len])
      are the ASCII fragment of Python's: code points above 127 are left
      alone by [lower] and are never white space.
    - Values that come out of a JSON document (request bodies, the completion
      reply, message contents, session ids) are [json] values; JSON numbers
      are integers.
    - The module globals [conversation_history] and [cv_content] are fields of
      an explicit [world]; the world also records every message list posted
      to the completion endpoint and every [logger.error] call.
    - The network and the file system are inputs: a handler is run against the
      reply the endpoint gives and against the content of the CV file. *)

From Stdlib Require Import ZArith Ascii String DecimalString DecimalZ DecimalPos.
From stdpp Require Import base option list gmap strings.

(** ** Text *)

Module Text.

(** [c.lower()] on one character: 'A'..'Z' move to 'a'..'z'. *)
Definition lower_char (c : ascii) : ascii :=
  let n := nat_of_ascii c in
  if (65 <=? n)%nat && (n <=? 90)%nat then ascii_of_nat (n + 32) else c.

(** [s.lower()] *)
Fixpoint lower (s : string) : string :=
  match s with
  | EmptyString => EmptyString
  | String c s' => String (lower_char c) (lower s')
  end.

(** [s.startswith(p)] *)
Fixpoint startswith (s p : string) {struct p} : bool :=
  match p, s with
  | EmptyString, _ => true
  | String _ _, EmptyString => false
  | String a p', String b s' => Ascii.eqb a b && startswith s' p'
  end.

(** [kw in s]: [kw] occurs in [s] at some offset. *)
Fixpoint contains (s kw : string) : bool :=
  startswith s kw ||
  match s with
  | EmptyString => false
  | String _ s' => contains s' kw
  end.

(** [c.isspace()] for an ASCII character: TAB, LF, VT, FF, CR, the four
    separators FS, GS, RS, US, and the space. *)
Definition isspace (c : ascii) : bool :=
  let n := nat_of_ascii c in
  ((9 <=? n)%nat && (n <=? 13)%nat) || ((28 <=? n)%nat && (n <=? 32)%nat).

(** [s.lstrip()] *)
Fixpoint lstrip (s : string) : string :=
  match s with
  | EmptyString => EmptyString
  | String c s' => if isspace c then lstrip s' else s
  end.

(** [s.rstrip()] *)
Fixpoint rstrip (s : string) : string :=
  match s with
  | EmptyString => EmptyString
  | String c s' =>
      match rstrip s' with
      | EmptyString => if isspace c then EmptyString else String c EmptyString
      | r => String c r
      end
  end.

(** [s.strip()] *)
Definition strip (s : string) : string := rstrip (lstrip s).

(** [c * n] for a one-character string [c]. *)
Fixpoint replicate_char (n : nat) (c : ascii) : string :=
  match n with
  | O => EmptyString
  | S n' => String c (replicate_char n' c)
  end.

(** [str(n)] for an [int]. *)
Definition str_int (n : Z) : string := NilZero.string_of_int (Z.to_int n).

(** The declarative reading of [kw in s]. *)
Definition Substring (kw s : string) : Prop :=
  exists pre post, s = pre +:+ kw +:+ post.

End Text.

(** ** Query classifier *)

(** The list [cv_keywords] of [is_cv_question], in source order ('portfolio'
    is listed twice there too). *)
Definition cv_keywords : list string :=
  [ "laiba"; "you"; "your"; "yourself";
    "experience"; "worked"; "job"; "intern"; "company"; "binate"; "stackware";
    "skills"; "know"; "proficient"; "expert";
    "study"; "studied"; "education"; "degree"; "university"; "college"; "cgpa"; "gpa";
    "projects"; "built"; "created"; "developed"; "portfolio";
    "contact"; "email"; "github"; "portfolio"; "reach";
    "about"; "who are"; "tell me about"; "background" ].

(** The list [tech_keywords] of [is_cv_question]. *)
Definition tech_keywords : list string :=
  [ "what is"; "how does"; "explain"; "difference between";
    "algorithm"; "data structure"; "code"; "program";
    "example"; "tutorial"; "learn" ].

(** [any(keyword in message_lower for keyword in keywords)] *)
Definition any_keyword_in (keywords : list string) (message_lower : string) : bool :=
  existsb (fun keyword => Text.contains message_lower keyword) keywords.

Definition is_cv_question (message : string) : bool :=
  let message_lower := Text.lower message in
  let has_cv_keyword := any_keyword_in cv_keywords message_lower in
  let is_general_tech :=
    any_keyword_in tech_keywords message_lower && negb has_cv_keyword in
  has_cv_keyword && negb is_general_tech.

(** The two conditions the classifier combines, stated over occurrences. *)
Definition grounding_present (message : string) : Prop :=
  exists kw, In kw cv_keywords /\ Text.Substring kw (Text.lower message).

Definition technical_present (message : string) : Prop :=
  exists kw, In kw tech_keywords /\ Text.Substring kw (Text.lower message).

(** ** Prompt builder *)

(** The grounded prompt is an f-string with one hole, [{cv_content}]; these are
    the text before and after the hole. *)
Definition cv_prompt_head : string :=
"You are Laiba Qayoom's AI assistant. Answer questions about Laiba using ONLY the CV information provided below. Be professional, concise, and accurate.

CV INFORMATION:
".

Definition cv_prompt_rules : string :=
"

RULES:
- Answer questions about Laiba's experience, skills, education, and projects
- Use information ONLY from the CV above
- Be conversational but professional
- If asked about something not in the CV, say you don't have that information
- Keep responses focused and concise
- Include specific details like percentages, technologies, and achievements when relevant".

Definition technical_prompt : string :=
"You are a helpful technical assistant specializing in Computer Science, programming, and software development.

Your expertise includes:
- Programming languages (Python, JavaScript, Java, C++, etc.)
- Data structures and algorithms
- Web development (Frontend & Backend)
- Databases (SQL, NoSQL)
- Machine Learning and AI
- Software engineering principles
- System design and architecture

Provide clear, accurate, and practical answers. Include code examples when relevant. Be concise but thorough.".

(** Truth value of a [str]: the empty string is false. *)
Definition truthy (s : string) : bool :=
  match s with
  | EmptyString => false
  | String _ _ => true
  end.

(** [create_system_prompt(is_cv_query)]; the global [cv_content] it reads is
    the first argument. *)
Definition create_system_prompt (cv_content : string) (is_cv_query : bool) : string :=
  if is_cv_query && truthy cv_content
  then cv_prompt_head +:+ cv_content +:+ cv_prompt_rules
  else technical_prompt.

(** ** Values, exceptions and the world *)

(** A value decoded from JSON. An object is the decoded [dict]: [JObj] lists its
    items, and a key is looked up from the front. *)
#[local] Unset Elimination Schemes.
Inductive json : Type :=
| JNull
| JBool (b : bool)
| JNum (n : Z)
| JStr (s : string)
| JArr (items : list json)
| JObj (fields : list (string * json)).
#[local] Set Elimination Schemes.

(** The exceptions the modelled code can meet; all are subclasses of
    [Exception], and [JSONDecodeError] is also a [ValueError]. *)
Inductive exn : Type :=
| Exception (msg : string)   (* raise Exception(msg) *)
| RequestException           (* requests.post: connection failure, timeout *)
| JSONDecodeError            (* response.json() on a body that is not JSON *)
| BadRequest                 (* request.json on a body that is not JSON *)
| KeyError
| IndexError
| TypeError
| AttributeError
| OSError.                   (* open / read of the CV file *)

Definition is_ValueError (e : exn) : bool :=
  match e with
  | JSONDecodeError => true
  | _ => false
  end.

Inductive outcome (A : Type) : Type :=
| Return (a : A)
| Raise (e : exn).
Arguments Return {A} a.
Arguments Raise {A} e.

#[global] Instance outcome_ret : MRet outcome := fun A a => Return a.

#[global] Instance outcome_bind : MBind outcome := fun A B f o =>
  match o with
  | Return a => f a
  | Raise e => Raise e
  end.

Inductive Role : Type := system | user | assistant.

(** One message dict, [{"role": ..., "content": ...}]. *)
Record Turn : Type := mkTurn { role : Role; content : json }.

(** What a [dict] compares its keys by: a [str], an [int] ([True] and [False]
    are the ints 1 and 0) or [None]. *)
Inductive pykey : Type :=
| KStr (s : string)
| KInt (n : Z)
| KNone.

#[global] Instance pykey_eq_dec : EqDecision pykey.
Proof. solve_decision. Defined.

#[global] Instance pykey_countable : Countable pykey.
Proof.
  refine (inj_countable'
    (fun k => match k with
              | KStr s => inl s
              | KInt n => inr (inl n)
              | KNone => inr (inr ())
              end)
    (fun x => match x with
              | inl s => KStr s
              | inr (inl n) => KInt n
              | inr (inr _) => KNone
              end) _).
  intros []; reflexivity.
Defined.

(** [hash(v)]: lists and dicts are unhashable. *)
Definition py_hash (v : json) : outcome pykey :=
  match v with
  | JStr s => Return (KStr s)
  | JNum n => Return (KInt n)
  | JBool b => Return (KInt (if b then 1 else 0))
  | JNull => Return KNone
  | JArr _ | JObj _ => Raise TypeError
  end.

(** The arguments of each [logger.error] call site. *)
Inductive log_record : Type :=
| GroqApiError (status_code : Z) (text : string) (* "Groq API error: {status_code} - {text}" *)
| ErrorCallingGroq (e : exn)                     (* "Error calling Groq API: {e}" *)
| ConfigurationError (e : exn)                   (* "Configuration error: {e}" *)
| ErrorInChatEndpoint (e : exn)                  (* "Error in chat endpoint: {e}" *)
| ErrorResettingChat (e : exn)                   (* "Error resetting chat: {e}" *)
| ErrorLoadingCV (e : exn).                      (* "Error loading CV: {e}" *)

Record world : Type := mkWorld {
  conversation_history : gmap pykey (list Turn);
  cv_content : string;
  posted : list (list Turn);     (* the [messages] of each requests.post, oldest first *)
  error_log : list log_record    (* logger.error calls, oldest first *)
}.

(** The state at import time. *)
Definition initial_world : world :=
  {| conversation_history := ∅; cv_content := ""; posted := []; error_log := [] |}.

(** ** Computations that read and write the world and may raise *)

Definition M (A : Type) : Type := world -> outcome A * world.

#[global] Instance M_ret : MRet M := fun A a w => (Return a, w).

#[global] Instance M_bind : MBind M := fun A B f m w =>
  match m w with
  | (Return a, w') => f a w'
  | (Raise e, w') => (Raise e, w')
  end.

Definition raise {A} (e : exn) : M A := fun w => (Raise e, w).

Definition lift {A} (o : outcome A) : M A := fun w => (o, w).

(** [try: body  except Exception as e: handler(e)] *)
Definition try_except {A} (body : M A) (handler : exn -> M A) : M A := fun w =>
  match body w with
  | (Return a, w') => (Return a, w')
  | (Raise e, w') => handler e w'
  end.

Definition get_history : M (gmap pykey (list Turn)) :=
  fun w => (Return (conversation_history w), w).

Definition set_history (h : gmap pykey (list Turn)) : M unit := fun w =>
  (Return (),
   {| conversation_history := h; cv_content := cv_content w;
      posted := posted w; error_log := error_log w |}).

Definition get_cv_content : M string := fun w => (Return (cv_content w), w).

Definition set_cv_content (s : string) : M unit := fun w =>
  (Return (),
   {| conversation_history := conversation_history w; cv_content := s;
      posted := posted w; error_log := error_log w |}).

Definition logger_error (r : log_record) : M unit := fun w =>
  (Return (),
   {| conversation_history := conversation_history w; cv_content := cv_content w;
      posted := posted w; error_log := error_log w ++ [r] |}).

(** ** Python operations on decoded JSON *)

(** [d.get(key)] on the items of a dict *)
Fixpoint assoc (key : string) (fields : list (string * json)) : option json :=
  match fields with
  | [] => None
  | (k, v) :: rest => if String.eqb k key then Some v else assoc key rest
  end.

(** [v.get(key, default)]: only a dict has [get]. *)
Definition py_get (v : json) (key : string) (fallback : json) : outcome json :=
  match v with
  | JObj fields => Return (default fallback (assoc key fields))
  | _ => Raise AttributeError
  end.

(** [v[key]] for a [str] key *)
Definition py_getitem (v : json) (key : string) : outcome json :=
  match v with
  | JObj fields =>
      match assoc key fields with
      | Some x => Return x
      | None => Raise KeyError
      end
  | _ => Raise TypeError
  end.

(** [v[0]] *)
Definition py_getitem0 (v : json) : outcome json :=
  match v with
  | JArr (x :: _) => Return x
  | JArr [] => Raise IndexError
  | JStr (String c _) => Return (JStr (String c EmptyString))
  | JStr EmptyString => Raise IndexError
  | JObj _ => Raise KeyError
  | JNull | JBool _ | JNum _ => Raise TypeError
  end.

(** [v.strip()]: only a [str] has [strip]. *)
Definition py_strip (v : json) : outcome string :=
  match v with
  | JStr s => Return (Text.strip s)
  | _ => Raise AttributeError
  end.

(** [l[-n:]] for a positive literal [n]: the last [n] items, or all of [l]
    when it has fewer. *)
Definition slice_last {A} (n : nat) (l : list A) : list A :=
  drop (length l - n) l.

(** ** Completion gateway *)

(** The HTTP response of the completion endpoint: [json_of] is what
    [response.json()] decodes, [None] when the body is not JSON. *)
Record response : Type := mkResponse {
  status_code : Z;
  text : string;
  json_of : option json
}.

(** What one [requests.post] comes back with: a response, or no response at
    all (connection failure, timeout after 30 seconds). *)
Inductive reply : Type :=
| NoResponse
| Response (r : response).

(** [requests.post(url, headers=..., json={..., "messages": messages, ...},
    timeout=30)] against the endpoint [groq]; every call is recorded. *)
Definition requests_post (groq : list Turn -> reply) (messages : list Turn) : M response :=
  fun w =>
    let w' := {| conversation_history := conversation_history w;
                 cv_content := cv_content w;
                 posted := posted w ++ [messages];
                 error_log := error_log w |} in
    match groq messages with
    | Response r => (Return r, w')
    | NoResponse => (Raise RequestException, w')
    end.

(** [response.json()] *)
Definition response_json (r : response) : M json :=
  match json_of r with
  | Some data => mret data
  | None => raise JSONDecodeError
  end.

(** [data['choices'][0]['message']['content']] *)
Definition completion_text (data : json) : outcome json :=
  choices ← py_getitem data "choices";
  choice ← py_getitem0 choices;
  reply_message ← py_getitem choice "message";
  py_getitem reply_message "content".

(** [conversation_history[key]] *)
Definition history_of (key : pykey) : M (list Turn) :=
  h ← get_history;
  match h !! key with
  | Some turns => mret turns
  | None => raise KeyError
  end.

(** [conversation_history[key] = turns] *)
Definition history_store (key : pykey) (turns : list Turn) : M unit :=
  h ← get_history;
  set_history (<[key := turns]> h).

(** [conversation_history[key].append(turn)] *)
Definition history_append (key : pykey) (turn : Turn) : M unit :=
  turns ← history_of key;
  history_store key (turns ++ [turn]).

Definition chat_with_groq (groq : list Turn -> reply)
    (message : string) (session_id : json) : M (json * bool) :=
  try_except
    (key ← lift (py_hash session_id);
     h ← get_history;
     (match h !! key with
      | None => history_store key []
      | Some _ => mret ()
      end);;
     let is_cv_query := is_cv_question message in
     cv ← get_cv_content;
     let system_prompt := create_system_prompt cv is_cv_query in
     let messages := [mkTurn system (JStr system_prompt)] in
     turns ← history_of key;
     let messages := messages ++ slice_last 5 turns in
     let messages := messages ++ [mkTurn user (JStr message)] in
     response ← requests_post groq messages;
     if (status_code response =? 200)%Z then
       data ← response_json response;
       assistant_message ← lift (completion_text data);
       history_append key (mkTurn user (JStr message));;
       history_append key (mkTurn assistant assistant_message);;
       stored ← history_of key;
       (if (10 <? length stored)%nat
        then history_store key (slice_last 10 stored)
        else mret ());;
       mret (assistant_message, is_cv_query)
     else
       logger_error (GroqApiError (status_code response) (text response));;
       raise (Exception ("API error: " +:+ Text.str_int (status_code response))))
    (fun e => logger_error (ErrorCallingGroq e);; raise e).

(** ** Request handlers *)

(** The CV file as [load_cv_content] finds it. *)
Inductive cv_file : Type :=
| NoFile                  (* the path does not exist *)
| FileText (s : string)   (* the file reads as [s] *)
| FileFails (e : exn).    (* looking at or reading the file raises *)

Definition load_cv_content (file : cv_file) : M bool :=
  try_except
    (match file with
     | FileText s => set_cv_content s;; mret true
     | NoFile => mret false
     | FileFails e => raise e
     end)
    (fun e => logger_error (ErrorLoadingCV e);; mret false).

(** The [before_request] hook. *)
Definition before_first_request (file : cv_file) : M unit :=
  cv ← get_cv_content;
  if negb (truthy cv) then load_cv_content file;; mret () else mret ().

(** The part of a Flask request the handlers read: [is_json] tells whether the
    Content-Type announces JSON, [body] is the decoded body, [None] when the
    body does not decode. *)
Record request : Type := mkRequest {
  is_json : bool;
  body : option json
}.

(** [request.json], read only where [request.is_json] holds. *)
Definition request_json (r : request) : M json :=
  match body r with
  | Some data => mret data
  | None => raise BadRequest
  end.

(** The JSON documents the two handlers answer with. Where the source sends
    [str(e)], the constructor carries [e]. *)
Inductive answer : Type :=
| ErrorBody (error : string)           (* {'error': error} *)
| ExnBody (e : exn)                    (* {'error': str(e)} *)
| ConfigErrorBody (e : exn)            (* {'error': str(e), 'details': 'Please check your API key configuration'} *)
| ServerErrorBody (details : option exn) (* {'error': 'An error occurred processing your request', 'details': ...} *)
| ChatBody (response_text session_id : json) (query_type : string)
                                       (* {'response', 'status': 'success', 'session_id', 'query_type'} *)
| ResetBody (session_id : json).       (* {'status': 'Conversation history reset', 'session_id'} *)

Definition MAX_MESSAGE_LENGTH : nat := 2000.

Definition chat (DEBUG : bool) (groq : list Turn -> reply) (request : request)
    : M (answer * Z) :=
  try_except
    (if negb (is_json request)
     then mret (ErrorBody "Content-Type must be application/json", 400%Z)
     else
       data ← request_json request;
       raw ← lift (py_get data "message" (JStr ""));
       message ← lift (py_strip raw);
       session_id ← lift (py_get data "session_id" (JStr "default"));
       if negb (truthy message)
       then mret (ErrorBody "No message provided", 400%Z)
       else if (MAX_MESSAGE_LENGTH <? String.length message)%nat
       then mret (ErrorBody ("Message too long (max "
                             +:+ Text.str_int (Z.of_nat MAX_MESSAGE_LENGTH)
                             +:+ " characters)"), 400%Z)
       else
         '(response_text, is_cv_query) ← chat_with_groq groq message session_id;
         mret (ChatBody response_text session_id
                 (if is_cv_query : bool then "cv" else "technical"), 200%Z))
    (fun e =>
       if is_ValueError e
       then logger_error (ConfigurationError e);; mret (ConfigErrorBody e, 500%Z)
       else logger_error (ErrorInChatEndpoint e);;
            mret (ServerErrorBody (if DEBUG then Some e else None), 500%Z)).

Definition reset_chat (request : request) : M (answer * Z) :=
  try_except
    (data ← (if is_json request then request_json request else mret (JObj []));
     session_id ← lift (py_get data "session_id" (JStr "default"));
     key ← lift (py_hash session_id);
     h ← get_history;
     (match h !! key with
      | Some _ => set_history (delete key h)
      | None => mret ()
      end);;
     mret (ResetBody session_id, 200%Z))
    (fun e => logger_error (ErrorResettingChat e);; mret (ExnBody e, 500%Z)).

(** ** The running service *)

(** One request as the process sees it, with the state of the CV file and,
    for a chat, the behaviour of the completion endpoint at that moment. *)
Inductive call : Type :=
| PostChat (file : cv_file) (groq : list Turn -> reply) (r : request)
| PostReset (file : cv_file) (r : request)
| OtherRequest (file : cv_file).   (* the GET routes and unmatched routes *)

(** The world after one request. *)
Definition serve (DEBUG : bool) (w : world) (c : call) : world :=
  match c with
  | PostChat file groq r => snd ((before_first_request file;; chat DEBUG groq r) w)
  | PostReset file r => snd ((before_first_request file;; reset_chat r) w)
  | OtherRequest file => snd (before_first_request file w)
  end.

(** The world after a sequence of requests, from process start. *)
Definition run (DEBUG : bool) (calls : list call) : world :=
  fold_left (serve DEBUG) calls initial_world.

(** A history list made of user / assistant pairs. *)
Fixpoint paired (turns : list Turn) : bool :=
  match turns with
  | [] => true
  | u :: a :: rest =>
      match role u, role a with
      | user, assistant => paired rest
      | _, _ => false
      end
  | [_] => false
  end.

(** ** Vocabulary of the statements *)

(** The turns stored for a session; a session that is absent has none. *)
Definition stored_turns (w : world) (key : pykey) : list Turn :=
  default [] (conversation_history w !! key).

(** The message list of a call as the specification describes it: the system
    prompt, the last five stored turns, the new user message. *)
Definition messages_for (w : world) (message : string) (key : pykey) : list Turn :=
  mkTurn system (JStr (create_system_prompt (cv_content w) (is_cv_question message)))
  :: slice_last 5 (stored_turns w key) ++ [mkTurn user (JStr message)].

(** The assistant text a reply yields: status 200, a body that decodes, and
    the expected shape; [None] is a failed completion. *)
Definition completion_of (rep : reply) : option json :=
  match rep with
  | NoResponse => None
  | Response r =>
      if (status_code r =? 200)%Z then
        match json_of r with
        | Some data =>
            match completion_text data with
            | Return a => Some a
            | Raise _ => None
            end
        | None => None
        end
      else None
  end.

(** [w] with another history. *)
Definition with_history (w : world) (h : gmap pykey (list Turn)) : world :=
  {| conversation_history := h; cv_content := cv_content w;
     posted := posted w; error_log := error_log w |}.

(** A history in which every session is made of user / assistant pairs and
    has at most ten turns. *)
Definition well_formed (h : gmap pykey (list Turn)) : Prop :=
  forall key turns, h !! key = Some turns ->
    paired turns = true /\ length turns <= 10.

(** [m] keeps the property [P] of the history, whatever its outcome. *)
Definition keeps (P : gmap pykey (list Turn) -> Prop) {A} (m : M A) : Prop :=
  forall w, P (conversation_history w) -> P (conversation_history (snd (m w))).

(** ** Concrete inputs *)

Module Sample.

(** A completion body of the expected shape. *)
Definition completion (s : string) : json :=
  JObj [("choices", JArr [JObj [("message", JObj [("content", JStr s)])]])].

(** An endpoint that answers every request with status 200 and text [s]. *)
Definition groq_says (s : string) : list Turn -> reply :=
  fun _ => Response (mkResponse 200 "" (Some (completion s))).

(** An endpoint that answers every request with [status] and body [text]. *)
Definition groq_status (status : Z) (text : string) : list Turn -> reply :=
  fun _ => Response (mkResponse status text None).

(** A JSON request whose body is [{"message": message}]. *)
Definition ask (message : string) : request :=
  mkRequest true (Some (JObj [("message", JStr message)])).

(** A JSON request whose body is [{"session_id": session_id}]. *)
Definition about_session (session_id : string) : request :=
  mkRequest true (Some (JObj [("session_id", JStr session_id)])).



(** Six chats in the default session, from process start. *)
Definition six_chats : list call :=
  repeat (PostChat NoFile (groq_says "ok") (ask "hello")) 6.

End Sample.

(** ** The remaining routes *)

(** The body of [GET /health]. *)
Record health : Type := mkHealth {
  health_status : string;
  api_key_set : bool;
  health_cv_loaded : bool;
  health_cv_size : nat
}.

(** [health_check()]; [Config.GROQ_API_KEY] is the argument. *)
Definition health_check (GROQ_API_KEY : string) : M (health * Z) :=
  cv ← get_cv_content;
  mret ({| health_status := "healthy";
           api_key_set := truthy GROQ_API_KEY;
           health_cv_loaded := truthy cv;
           health_cv_size := String.length cv |}, 200%Z).

(** The bodies of [GET /api/cv/info]. *)
Inductive cv_info : Type :=
| CvInfo (cv_loaded : bool) (cv_size : nat) (cv_file : string)
| CvInfoError (e : exn).               (* {'error': str(e)} *)

(** [get_cv_info()]; [Config.CV_FILE_PATH] is the argument. *)
Definition get_cv_info (CV_FILE_PATH : string) : M (cv_info * Z) :=
  try_except
    (cv ← get_cv_content;
     mret (CvInfo (truthy cv) (String.length cv) CV_FILE_PATH, 200%Z))
    (fun e => mret (CvInfoError e, 500%Z)).

(** ** The .env listing of check_env.py *)

Module CheckEnv.

(** [s[:n]] *)
Fixpoint str_take (n : nat) (s : string) : string :=
  match n, s with
  | S n', String c s' => String c (str_take n' s')
  | _, _ => EmptyString
  end.

(** [s[n:]] *)
Fixpoint str_drop (n : nat) (s : string) : string :=
  match n, s with
  | S n', String _ s' => str_drop n' s'
  | _, _ => s
  end.

(** [s[-n:]] for a positive literal [n] *)
Definition str_last (n : nat) (s : string) : string :=
  str_drop (String.length s - n) s.

(** [s.split(sep, 1)] for a one-character [sep] that occurs in [s]: the text
    before the first [sep] and the text after it. Where [sep] does not occur
    the whole of [s] comes first. *)
Fixpoint split_first (sep : ascii) (s : string) : string * string :=
  match s with
  | EmptyString => (EmptyString, EmptyString)
  | String c s' =>
      if Ascii.eqb c sep then (EmptyString, s')
      else let '(before, after) := split_first sep s' in (String c before, after)
  end.

(** The body of the loop over the lines of [.env]: what it prints for one
    line of the file, one string per [print]. *)
Definition print_env_line (raw : string) : list string :=
  let line := Text.strip raw in
  if truthy line && negb (Text.startswith line "#") then
    if Text.contains line "=" then
      let '(key, value) := split_first "=" line in
      if Text.contains key "KEY" || Text.contains key "TOKEN" then
        if truthy value then
          [key +:+ "=" +:+ str_take 10 value +:+ "..." +:+ str_last 4 value
               +:+ " (" +:+ Text.str_int (Z.of_nat (String.length value))
               +:+ " chars)"]
        else [key +:+ "=(empty)"]
      else [key +:+ "=" +:+ value]
    else []
  else [line].

(** [for line in f: ...] over the lines of the file. *)
Definition print_env_file (lines : list string) : list string :=
  flat_map print_env_line lines.

End CheckEnv.

(** ** Further vocabulary *)

(** The answer of [chat] when the pipeline raised [e]. *)
Definition failure_answer (DEBUG : bool) (e : exn) : answer :=
  if is_ValueError e then ConfigErrorBody e
  else ServerErrorBody (if DEBUG then Some e else None).

(** The record [chat] logs when the pipeline raised [e]. *)
Definition failure_record (e : exn) : log_record :=
  if is_ValueError e then ConfigurationError e else ErrorInChatEndpoint e.

(** [w] with one more error record. *)
Definition with_error (w : world) (r : log_record) : world :=
  {| conversation_history := conversation_history w; cv_content := cv_content w;
     posted := posted w; error_log := error_log w ++ [r] |}.

(** [w] with another document. *)
Definition with_cv_content (w : world) (cv : string) : world :=
  {| conversation_history := conversation_history w; cv_content := cv;
     posted := posted w; error_log := error_log w |}.

(** What [chat] makes of the gateway's result for [session_id]. *)
Definition chat_answer (DEBUG : bool) (session_id : json)
    (result : outcome (json * bool) * world) : outcome (answer * Z) * world :=
  match result with
  | (Return (response_text, is_cv_query), w') =>
      (Return (ChatBody response_text session_id
                 (if is_cv_query : bool then "cv" else "technical"), 200%Z), w')
  | (Raise e, w') =>
      (Return (failure_answer DEBUG e, 500%Z), with_error w' (failure_record e))
  end.

(** The number of chat requests in a sequence of requests. *)
Fixpoint chat_requests (calls : list call) : nat :=
  match calls with
  | [] => 0
  | PostChat _ _ _ :: rest => S (chat_requests rest)
  | _ :: rest => chat_requests rest
  end.

(** A user turn as the chat handler hands it to the gateway: a stripped,
    non-empty text of at most [MAX_MESSAGE_LENGTH] characters. *)
Definition accepted_message (message : string) : Prop :=
  message <> "" /\ String.length message <= MAX_MESSAGE_LENGTH /\
  Text.strip message = message.



(** ** Text lemmas *)

Module TextFacts.
Import Text.

Lemma append_cons (x : ascii) (a b : string) :
  String x a +:+ b = String x (a +:+ b).
Proof. reflexivity. Qed.

Lemma append_nil (b : string) : "" +:+ b = b.
Proof. reflexivity. Qed.

Lemma append_assoc (a b c : string) : (a +:+ b) +:+ c = a +:+ (b +:+ c).
Proof.
  induction a as [|x a IH]; [reflexivity |].
  rewrite !append_cons. now rewrite IH.
Qed.

Lemma startswith_spec (p s : string) :
  startswith s p = true <-> exists post, s = p +:+ post.
Proof.
  revert s. induction p as [|a p IH]; intros s; cbn [startswith].
  - split; [intros _; now exists s | reflexivity].
  - destruct s as [|b s].
    + split; [discriminate | intros [post H]; rewrite append_cons in H; discriminate].
    + rewrite andb_true_iff, Ascii.eqb_eq, IH. split.
      * intros [-> [post ->]]. now exists post.
      * intros [post H]. rewrite append_cons in H. injection H as -> ->.
        split; [reflexivity | now exists post].
Qed.

Lemma contains_spec (s kw : string) :
  contains s kw = true <-> Substring kw s.
Proof.
  unfold Substring. induction s as [|c s IH].
  - cbn [contains]. rewrite orb_false_r, startswith_spec. split.
    + intros [post H]. now exists "", post.
    + intros [[|x pre] [post H]]; [now exists post |].
      rewrite append_cons in H. discriminate.
  - cbn [contains]. rewrite orb_true_iff, startswith_spec, IH. split.
    + intros [[post H] | [pre [post H]]].
      * now exists "", post.
      * exists (String c pre), post. rewrite append_cons. now rewrite H.
    + intros [[|x pre] [post H]].
      * left. now exists post.
      * right. rewrite append_cons in H. injection H as -> ->. now exists pre, post.
Qed.

Lemma Substring_app_l (kw a b : string) : Substring kw a -> Substring kw (a +:+ b).
Proof.
  intros [pre [post ->]]. exists pre, (post +:+ b).
  now rewrite !append_assoc.
Qed.

Lemma Substring_app_r (kw a b : string) : Substring kw b -> Substring kw (a +:+ b).
Proof.
  intros [pre [post ->]]. exists (a +:+ pre), post.
  now rewrite !append_assoc.
Qed.

Lemma length_append (a b : string) :
  String.length (a +:+ b) = (String.length a + String.length b)%nat.
Proof.
  induction a as [|x a IH]; [reflexivity |].
  rewrite append_cons. cbn [String.length]. now rewrite IH.
Qed.

Lemma length_replicate_char (n : nat) (c : ascii) :
  String.length (replicate_char n c) = n.
Proof. induction n as [|n IH]; cbn; [reflexivity | now rewrite IH]. Qed.

(** [str] of an [int] can be read back. *)
Lemma str_int_inj (n m : Z) : str_int n = str_int m -> n = m.
Proof.
  unfold str_int. intros H.
  assert (forall z, NilZero.int_of_string (NilZero.string_of_int (Z.to_int z))
                    = Some (Z.to_int z)) as R.
  { intros z. apply NilZero.isi; destruct z as [|p|p]; cbn; try discriminate;
      intros E; injection E; apply DecimalPos.Unsigned.to_uint_nonnil. }
  pose proof (R n) as Rn. rewrite H, R in Rn. injection Rn as Rn.
  rewrite <- (DecimalZ.of_to n), <- (DecimalZ.of_to m). now rewrite Rn.
Qed.

End TextFacts.

(** ** The classifier *)

Lemma any_keyword_in_spec (keywords : list string) (message_lower : string) :
  any_keyword_in keywords message_lower = true <->
  exists kw, In kw keywords /\ Text.Substring kw message_lower.
Proof.
  unfold any_keyword_in. rewrite existsb_exists.
  split; intros [kw [Hin H]]; exists kw; (split; [exact Hin |]);
    now apply TextFacts.contains_spec.
Qed.

Lemma grounding_present_iff (message : string) :
  any_keyword_in cv_keywords (Text.lower message) = true <-> grounding_present message.
Proof. apply any_keyword_in_spec. Qed.

Lemma technical_present_iff (message : string) :
  any_keyword_in tech_keywords (Text.lower message) = true <-> technical_present message.
Proof. apply any_keyword_in_spec. Qed.

(** The classifier is decided by the grounding keywords alone: the
    general-technical test can only hold where no grounding keyword occurs,
    and there the result is already false. *)
Lemma is_cv_question_grounding (message : string) :
  is_cv_question message = any_keyword_in cv_keywords (Text.lower message).
Proof.
  unfold is_cv_question.
  destruct (any_keyword_in cv_keywords _), (any_keyword_in tech_keywords _); reflexivity.
Qed.

(** C1. For every message, [is_cv_question] holds exactly when a grounding
    keyword occurs in the lowercased message and it is not the case that a
    general-technical keyword occurs while no grounding keyword does; so a
    message in which keywords of both lists occur is classified as grounded,
    and a message in which no keyword of either list occurs is classified as
    general / technical. *)
Theorem is_cv_question_spec (message : string) :
  (is_cv_question message = true <->
     grounding_present message /\
     ~ (technical_present message /\ ~ grounding_present message)) /\
  (grounding_present message -> technical_present message ->
     is_cv_question message = true) /\
  (~ grounding_present message -> ~ technical_present message ->
     is_cv_question message = false).
Proof.
  rewrite is_cv_question_grounding.
  pose proof (grounding_present_iff message) as G.
  destruct (any_keyword_in cv_keywords (Text.lower message)).
  - assert (grounding_present message) as Hg by now apply G.
    split; [| split].
    + split; [intros _ | reflexivity]. split; [exact Hg | intros [_ Hn]; now apply Hn].
    + reflexivity.
    + intros Hn. now destruct Hn.
  - assert (~ grounding_present message) as Hg.
    { intros H. apply G in H. discriminate. }
    split; [| split].
    + split; [discriminate | intros [H _]; now destruct Hg].
    + intros H. now destruct Hg.
    + reflexivity.
Qed.

(** A message with "your" (grounding) and "what is" (general-technical). *)
Lemma is_cv_question_spec_witness :
  is_cv_question "What is your name?" = true.
Proof.
  apply (is_cv_question_spec "What is your name?").
  - exists "your". split; [simpl; tauto |]. now exists "what is ", " name?".
  - exists "what is". split; [simpl; tauto |]. now exists "", " your name?".
Defined.

(** C3. The three messages the specification names: a question about the
    experience at Stackware is grounded, the plain question about binary
    search trees is not, and the question about "your experience with binary
    search trees" is grounded. *)
Theorem is_cv_question_examples :
  is_cv_question "Tell me about your experience at Stackware" = true /\
  is_cv_question "What is a binary search tree?" = false /\
  is_cv_question "What is your experience with binary search trees?" = true.
Proof. repeat split; vm_compute; reflexivity. Qed.

(** ** The prompt builder *)

Lemma truthy_nonempty (s : string) : truthy s = true <-> s <> "".
Proof. destruct s; simpl; split; congruence. Qed.

Lemma cv_prompt_head_persona :
  Text.Substring "You are Laiba Qayoom's AI assistant" cv_prompt_head.
Proof. apply TextFacts.contains_spec. vm_compute. reflexivity. Qed.

Lemma cv_prompt_rules_only_cv :
  Text.Substring "Use information ONLY from the CV above" cv_prompt_rules.
Proof. apply TextFacts.contains_spec. vm_compute. reflexivity. Qed.

Lemma cv_prompt_rules_refusal :
  Text.Substring
    "If asked about something not in the CV, say you don't have that information"
    cv_prompt_rules.
Proof. apply TextFacts.contains_spec. vm_compute. reflexivity. Qed.

(** The two branches never give the same text: the grounded prompt starts
    "You are L", the generic one "You are a". *)
Lemma grounded_prompt_not_technical (cv : string) :
  cv_prompt_head +:+ cv +:+ cv_prompt_rules <> technical_prompt.
Proof.
  unfold cv_prompt_head, technical_prompt.
  rewrite !TextFacts.append_cons. intros H. discriminate H.
Qed.

(** C4. The prompt is a function of the flag and the document alone. With the
    flag set and a non-empty document it is the persona line, the document
    text word for word, and the rules that restrict the answer to the
    document and ask to say so when the document does not cover a question;
    in every other case it is the fixed technical-assistant prompt. *)
Theorem create_system_prompt_spec (cv : string) (is_cv_query : bool) :
  (is_cv_query = true -> cv <> "" ->
     create_system_prompt cv is_cv_query = cv_prompt_head +:+ cv +:+ cv_prompt_rules /\
     Text.Substring cv (create_system_prompt cv is_cv_query) /\
     Text.Substring "You are Laiba Qayoom's AI assistant"
       (create_system_prompt cv is_cv_query) /\
     Text.Substring "Use information ONLY from the CV above"
       (create_system_prompt cv is_cv_query) /\
     Text.Substring
       "If asked about something not in the CV, say you don't have that information"
       (create_system_prompt cv is_cv_query)) /\
  (is_cv_query = false \/ cv = "" ->
     create_system_prompt cv is_cv_query = technical_prompt).
Proof.
  split.
  - intros -> Hcv. apply truthy_nonempty in Hcv.
    unfold create_system_prompt. rewrite Hcv. cbn [andb].
    split; [reflexivity |]. split; [| split; [| split]].
    + now exists cv_prompt_head, cv_prompt_rules.
    + apply TextFacts.Substring_app_l, cv_prompt_head_persona.
    + do 2 apply TextFacts.Substring_app_r. apply cv_prompt_rules_only_cv.
    + do 2 apply TextFacts.Substring_app_r. apply cv_prompt_rules_refusal.
  - unfold create_system_prompt. intros [-> | ->]; [reflexivity |].
    now rewrite andb_false_r.
Qed.

Lemma create_system_prompt_spec_witness :
  create_system_prompt "Python developer" true =
    cv_prompt_head +:+ "Python developer" +:+ cv_prompt_rules /\
  create_system_prompt "" true = technical_prompt.
Proof.
  split.
  - apply (create_system_prompt_spec "Python developer" true);
      [reflexivity | discriminate].
  - apply (create_system_prompt_spec "" true). right. reflexivity.
Defined.

(** ** Running the gateway *)

(** Unfolds the plumbing of [M] and the accessors of the world. *)
Ltac unfold_M :=
  cbv beta iota zeta delta
    [try_except mbind M_bind mret M_ret lift raise
     history_of history_store history_append get_history set_history
     get_cv_content set_cv_content logger_error requests_post response_json
     request_json with_history
     conversation_history cv_content posted error_log] in *.

Lemma slice_last_short {A} (n : nat) (l : list A) :
  length l <= n -> slice_last n l = l.
Proof.
  intros H. unfold slice_last.
  replace (length l - n) with 0 by lia. reflexivity.
Qed.

Lemma slice_last_suffix {A} (n : nat) (l : list A) :
  take (length l - n) l ++ slice_last n l = l.
Proof. apply take_drop. Qed.

Lemma length_slice_last {A} (n : nat) (l : list A) :
  length (slice_last n l) = min n (length l).
Proof. unfold slice_last. rewrite length_drop. lia. Qed.

(** A session that is stored keeps its list when it is stored again. *)
Lemma insert_stored (h : gmap pykey (list Turn)) (key : pykey) (old : list Turn) :
  h !! key = Some old -> <[key := old]> h = h.
Proof. apply insert_id. Qed.

(** A session id that cannot be hashed stops the call before anything is
    read or sent. *)
Lemma chat_with_groq_unhashable groq message session_id e w :
  py_hash session_id = Raise e ->
  chat_with_groq groq message session_id w =
    (Raise e,
     {| conversation_history := conversation_history w;
        cv_content := cv_content w;
        posted := posted w;
        error_log := error_log w ++ [ErrorCallingGroq e] |}).
Proof.
  intros Hkey. unfold chat_with_groq. unfold_M. rewrite Hkey. reflexivity.
Qed.

(** A completed call: the reply and flag are returned, one message list is
    posted, and the session holds the last ten of its turns followed by the
    new pair. *)
Lemma chat_with_groq_success groq message session_id key a w :
  py_hash session_id = Return key ->
  completion_of (groq (messages_for w message key)) = Some a ->
  chat_with_groq groq message session_id w =
    (Return (a, is_cv_question message),
     {| conversation_history :=
          <[key := slice_last 10 (stored_turns w key ++
                     [mkTurn user (JStr message); mkTurn assistant a])]>
            (conversation_history w);
        cv_content := cv_content w;
        posted := posted w ++ [messages_for w message key];
        error_log := error_log w |}).
Proof.
  intros Hkey Hok. unfold completion_of in Hok.
  unfold chat_with_groq, messages_for, stored_turns in *.
  destruct w as [h cv sent log]. unfold_M. rewrite Hkey.
  destruct (h !! key) as [old|] eqn:E; cbn [default id] in *.
  - rewrite E. destruct (groq _) as [|r]; [discriminate |].
    destruct (status_code r =? 200)%Z; [| discriminate].
    destruct (json_of r) as [data|]; [| discriminate].
    destruct (completion_text data) as [a'|]; [| discriminate].
    injection Hok as ->. rewrite E, !lookup_insert_eq.
    rewrite <- !app_assoc. cbn [app].
    destruct (10 <? length _) eqn:L; unfold_M.
    + now rewrite !insert_insert_eq.
    + apply Nat.ltb_ge in L. rewrite (slice_last_short 10 _ L).
      now rewrite !insert_insert_eq.
  - rewrite !lookup_insert_eq. destruct (groq _) as [|r]; [discriminate |].
    destruct (status_code r =? 200)%Z; [| discriminate].
    destruct (json_of r) as [data|]; [| discriminate].
    destruct (completion_text data) as [a'|]; [| discriminate].
    injection Hok as ->. rewrite !lookup_insert_eq. cbn [app].
    now rewrite !insert_insert_eq.
Qed.

(** A failed completion: the call raises, one message list was posted, and
    the session holds what it held (an absent session is now stored, empty). *)
Lemma chat_with_groq_failure groq message session_id key w :
  py_hash session_id = Return key ->
  completion_of (groq (messages_for w message key)) = None ->
  exists e log,
    chat_with_groq groq message session_id w =
      (Raise e,
       {| conversation_history :=
            <[key := stored_turns w key]> (conversation_history w);
          cv_content := cv_content w;
          posted := posted w ++ [messages_for w message key];
          error_log := log |}).
Proof.
  intros Hkey Hbad. unfold completion_of in Hbad.
  unfold chat_with_groq, messages_for, stored_turns in *.
  destruct w as [h cv sent log]. unfold_M. rewrite Hkey.
  destruct (h !! key) as [old|] eqn:E; cbn [default id] in *;
    [rewrite E, (insert_stored h key old E) | rewrite !lookup_insert_eq];
    (destruct (groq _) as [|r]; [eauto |]);
    (destruct (status_code r =? 200)%Z; [| eauto]);
    (destruct (json_of r) as [data|]; [| eauto]);
    (destruct (completion_text data) as [a'|]; [discriminate | eauto]).
Qed.

(** A reply with a status other than 200: the call raises
    [Exception("API error: <status>")]; status and body go to the error log. *)
Lemma chat_with_groq_bad_status groq message session_id key r w :
  py_hash session_id = Return key ->
  groq (messages_for w message key) = Response r ->
  status_code r <> 200%Z ->
  chat_with_groq groq message session_id w =
    (Raise (Exception ("API error: " +:+ Text.str_int (status_code r))),
     {| conversation_history :=
          <[key := stored_turns w key]> (conversation_history w);
        cv_content := cv_content w;
        posted := posted w ++ [messages_for w message key];
        error_log := error_log w ++
          [GroqApiError (status_code r) (text r);
           ErrorCallingGroq
             (Exception ("API error: " +:+ Text.str_int (status_code r)))] |}).
Proof.
  intros Hkey Hr Hs. apply Z.eqb_neq in Hs.
  unfold chat_with_groq, messages_for, stored_turns in *.
  destruct w as [h cv sent log]. unfold_M. rewrite Hkey.
  destruct (h !! key) as [old|] eqn:E; cbn [default id] in *;
    [rewrite E, (insert_stored h key old E) | rewrite !lookup_insert_eq];
    cbn [app]; rewrite Hr, Hs, <- app_assoc; reflexivity.
Qed.

(** ** What the gateway sends *)

(** C5. For every world, message and (hashable) session id, the call posts
    exactly one message list: the system prompt first, then the last
    [min 5 n] of the [n] turns stored for the session, in stored order, then
    the new user message. *)
Theorem chat_with_groq_posts groq message session_id key w :
  py_hash session_id = Return key ->
  exists older context,
    stored_turns w key = older ++ context /\
    length context = min 5 (length (stored_turns w key)) /\
    posted (snd (chat_with_groq groq message session_id w)) =
      posted w ++
      [ mkTurn system
          (JStr (create_system_prompt (cv_content w) (is_cv_question message)))
        :: context ++ [mkTurn user (JStr message)] ].
Proof.
  intros Hkey.
  exists (take (length (stored_turns w key) - 5) (stored_turns w key)),
         (slice_last 5 (stored_turns w key)).
  split; [now rewrite slice_last_suffix |].
  split; [apply length_slice_last |].
  destruct (completion_of (groq (messages_for w message key))) as [a|] eqn:C.
  - now rewrite (chat_with_groq_success _ _ _ _ _ _ Hkey C).
  - destruct (chat_with_groq_failure _ _ _ _ _ Hkey C) as [e [log ->]].
    reflexivity.
Qed.

Lemma chat_with_groq_posts_witness :
  exists older context,
    stored_turns (run false Sample.six_chats) (KStr "default") = older ++ context /\
    length context = 5 /\
    posted (snd (chat_with_groq (Sample.groq_says "ok") "hello" (JStr "default")
                   (run false Sample.six_chats))) =
      posted (run false Sample.six_chats) ++
      [ mkTurn system (JStr technical_prompt)
        :: context ++ [mkTurn user (JStr "hello")] ].
Proof.
  destruct (chat_with_groq_posts (Sample.groq_says "ok") "hello" (JStr "default")
              (KStr "default") (run false Sample.six_chats) eq_refl)
    as [older [context [H1 [H2 H3]]]].
  exists older, context. split; [exact H1 |]. split; [exact H2 | exact H3].
Defined.

(** ** Failed completions *)

(** The ways a completion fails: no response, a status other than 200, a body
    that does not decode, a body of another shape. *)
Lemma completion_of_None (rep : reply) :
  completion_of rep = None <->
  rep = NoResponse \/
  exists r, rep = Response r /\
    (status_code r <> 200%Z \/
     json_of r = None \/
     exists data e, json_of r = Some data /\ completion_text data = Raise e).
Proof.
  unfold completion_of. destruct rep as [|r].
  - split; [now left | reflexivity].
  - destruct (Z.eqb_spec (status_code r) 200) as [Hs|Hs].
    + destruct (json_of r) as [data|] eqn:J.
      * destruct (completion_text data) as [a|e] eqn:C.
        -- split; [discriminate |].
           intros [H | [r' [H [H' | [H' | [d [e [H1 H2]]]]]]]];
             [discriminate | injection H as <-; congruence ..].
        -- split; [| reflexivity]. intros _. right. exists r.
           split; [reflexivity |]. right. right. now exists data, e.
      * split; [| reflexivity]. intros _. right. exists r. auto.
    + split; [| reflexivity]. intros _. right. exists r. auto.
Qed.

(** C7, as the code has it. When the endpoint answers with a status other
    than 200, the call raises the plain [Exception("API error: <status>")]:
    its text determines the status and nothing else, the response body is
    written to the error log only, and exactly one request was posted. *)
Theorem chat_with_groq_api_error groq message session_id key r w :
  py_hash session_id = Return key ->
  groq (messages_for w message key) = Response r ->
  status_code r <> 200%Z ->
  fst (chat_with_groq groq message session_id w) =
    Raise (Exception ("API error: " +:+ Text.str_int (status_code r))) /\
  (forall n : Z,
     "API error: " +:+ Text.str_int n =
     "API error: " +:+ Text.str_int (status_code r) -> n = status_code r) /\
  posted (snd (chat_with_groq groq message session_id w)) =
    posted w ++ [messages_for w message key] /\
  error_log (snd (chat_with_groq groq message session_id w)) =
    error_log w ++
    [GroqApiError (status_code r) (text r);
     ErrorCallingGroq (Exception ("API error: " +:+ Text.str_int (status_code r)))].
Proof.
  intros Hkey Hr Hs.
  rewrite (chat_with_groq_bad_status _ _ _ _ _ _ Hkey Hr Hs). cbn [fst snd].
  split; [reflexivity |]. split; [| split; reflexivity].
  intros n H. apply String.app_inj in H. now apply TextFacts.str_int_inj.
Qed.

Lemma chat_with_groq_api_error_witness :
  fst (chat_with_groq (Sample.groq_status 503 "busy") "hello" (JStr "s1")
         initial_world) = Raise (Exception "API error: 503") /\
  length (posted (snd (chat_with_groq (Sample.groq_status 503 "busy") "hello"
                         (JStr "s1") initial_world))) = 1.
Proof.
  destruct (chat_with_groq_api_error (Sample.groq_status 503 "busy") "hello"
              (JStr "s1") (KStr "s1") (mkResponse 503 "busy" None) initial_world
              eq_refl eq_refl) as [H1 [_ [H2 _]]].
  - discriminate.
  - split; [exact H1 |]. rewrite H2. reflexivity.
Defined.

(** Two replies with status 500 and different bodies raise the same
    exception: the body is not part of what the caller receives. *)
Lemma chat_with_groq_error_omits_body :
  fst (chat_with_groq (Sample.groq_status 500 "quota exceeded") "hello"
         (JStr "s1") initial_world) = Raise (Exception "API error: 500") /\
  fst (chat_with_groq (Sample.groq_status 500 "server down") "hello"
         (JStr "s1") initial_world) = Raise (Exception "API error: 500") /\
  text (mkResponse 500 "quota exceeded" None) <>
  text (mkResponse 500 "server down" None).
Proof. repeat split; try (vm_compute; reflexivity). discriminate. Qed.

(** C10. A completion that fails makes the call raise, and a call that
    raises, for whatever reason, leaves every session with the turns it had:
    sessions that were stored are stored unchanged, and the only entry that
    can be new is the session of the call, with no turns. *)
Theorem chat_with_groq_failure_keeps_history groq message session_id w :
  (forall key,
     py_hash session_id = Return key ->
     completion_of (groq (messages_for w message key)) = None ->
     exists e, fst (chat_with_groq groq message session_id w) = Raise e) /\
  (forall e w',
     chat_with_groq groq message session_id w = (Raise e, w') ->
     (forall key, stored_turns w' key = stored_turns w key) /\
     (forall key turns,
        conversation_history w !! key = Some turns ->
        conversation_history w' !! key = Some turns) /\
     (forall key turns,
        conversation_history w' !! key = Some turns ->
        conversation_history w !! key = Some turns \/
        (conversation_history w !! key = None /\ turns = [] /\
         py_hash session_id = Return key))).
Proof.
  split.
  - intros key Hkey C.
    destruct (chat_with_groq_failure _ message _ _ w Hkey C) as [e [log ->]].
    now exists e.
  - intros e w' Hrun.
    destruct (py_hash session_id) as [key|e0] eqn:Hkey.
    + destruct (completion_of (groq (messages_for w message key))) as [a|] eqn:C.
      { rewrite (chat_with_groq_success _ _ _ _ _ _ Hkey C) in Hrun. discriminate. }
      destruct (chat_with_groq_failure _ message _ _ w Hkey C) as [e1 [log Hfail]].
      rewrite Hfail in Hrun. injection Hrun as _ <-.
      unfold stored_turns. cbn [conversation_history].
      split; [| split]; intros k.
      * destruct (decide (key = k)) as [->|Hne].
        -- now rewrite lookup_insert_eq.
        -- now rewrite lookup_insert_ne.
      * intros turns Hk. destruct (decide (key = k)) as [->|Hne].
        -- now rewrite lookup_insert_eq, Hk.
        -- now rewrite lookup_insert_ne.
      * intros turns. destruct (decide (key = k)) as [->|Hne].
        -- rewrite lookup_insert_eq.
           destruct (conversation_history w !! k) as [old|]; cbn [default].
           ++ intros H. now left.
           ++ intros H. injection H as <-. right. auto.
        -- rewrite lookup_insert_ne by exact Hne. now left.
    + rewrite (chat_with_groq_unhashable _ _ _ _ _ Hkey) in Hrun.
      injection Hrun as _ <-. unfold stored_turns. cbn [conversation_history].
      split; [| split]; auto.
Qed.

Lemma chat_with_groq_failure_keeps_history_witness :
  (exists e, fst (chat_with_groq (fun _ => NoResponse) "hello" (JStr "default")
                    (run false Sample.six_chats)) = Raise e) /\
  stored_turns (snd (chat_with_groq (fun _ => NoResponse) "hello" (JStr "default")
                       (run false Sample.six_chats))) (KStr "default") =
  stored_turns (run false Sample.six_chats) (KStr "default").
Proof.
  pose proof (chat_with_groq_failure_keeps_history (fun _ => NoResponse) "hello"
                (JStr "default") (run false Sample.six_chats)) as [H1 H2].
  split.
  - apply (H1 (KStr "default")); reflexivity.
  - refine (proj1 (H2 RequestException
                     (snd (chat_with_groq (fun _ => NoResponse) "hello"
                             (JStr "default") (run false Sample.six_chats))) _)
              (KStr "default")).
    vm_compute. reflexivity.
Defined.

(** ** Properties of the history that every computation keeps *)

Section Keeps.
Context (P : gmap pykey (list Turn) -> Prop).

Lemma keeps_mret {A} (a : A) : keeps P (mret a).
Proof. intros w H. exact H. Qed.

Lemma keeps_raise {A} (e : exn) : keeps P (@raise A e).
Proof. intros w H. exact H. Qed.

Lemma keeps_lift {A} (o : outcome A) : keeps P (lift o).
Proof. intros w H. exact H. Qed.

Lemma keeps_bind {A B} (m : M A) (f : A -> M B) :
  keeps P m -> (forall a, keeps P (f a)) -> keeps P (m ≫= f).
Proof.
  intros Hm Hf w H. specialize (Hm w H).
  unfold mbind, M_bind. destruct (m w) as [[a|e] w']; cbn [snd] in *.
  - now apply Hf.
  - exact Hm.
Qed.

Lemma keeps_try_except {A} (m : M A) (handler : exn -> M A) :
  keeps P m -> (forall e, keeps P (handler e)) -> keeps P (try_except m handler).
Proof.
  intros Hm Hh w H. specialize (Hm w H).
  unfold try_except. destruct (m w) as [[a|e] w']; cbn [snd] in *.
  - exact Hm.
  - now apply Hh.
Qed.

Lemma keeps_logger_error (r : log_record) : keeps P (logger_error r).
Proof. intros w H. exact H. Qed.

Lemma keeps_get_cv_content : keeps P get_cv_content.
Proof. intros w H. exact H. Qed.

Lemma keeps_set_cv_content (s : string) : keeps P (set_cv_content s).
Proof. intros w H. exact H. Qed.

Lemma keeps_get_history : keeps P get_history.
Proof. intros w H. exact H. Qed.

Lemma keeps_request_json (r : request) : keeps P (request_json r).
Proof. unfold request_json. destruct (body r); [apply keeps_mret | apply keeps_raise]. Qed.

Lemma keeps_load_cv_content (file : cv_file) : keeps P (load_cv_content file).
Proof.
  apply keeps_try_except.
  - destruct file.
    + apply keeps_mret.
    + apply keeps_bind; [apply keeps_set_cv_content | intros; apply keeps_mret].
    + apply keeps_raise.
  - intros e. apply keeps_bind; [apply keeps_logger_error | intros; apply keeps_mret].
Qed.

Lemma keeps_before_first_request (file : cv_file) :
  keeps P (before_first_request file).
Proof.
  apply keeps_bind; [apply keeps_get_cv_content |]. intros cv.
  destruct (negb (truthy cv)); [| apply keeps_mret].
  apply keeps_bind; [apply keeps_load_cv_content | intros; apply keeps_mret].
Qed.

(** The chat handler touches the history through the gateway only. *)
Lemma keeps_chat DEBUG groq (r : request) :
  (forall message session_id, keeps P (chat_with_groq groq message session_id)) ->
  keeps P (chat DEBUG groq r).
Proof.
  intros Hgw. apply keeps_try_except.
  - destruct (negb (is_json r)); [apply keeps_mret |].
    apply keeps_bind; [apply keeps_request_json |]. intros data.
    apply keeps_bind; [apply keeps_lift |]. intros raw.
    apply keeps_bind; [apply keeps_lift |]. intros message.
    apply keeps_bind; [apply keeps_lift |]. intros session_id.
    destruct (negb (truthy message)); [apply keeps_mret |].
    destruct (MAX_MESSAGE_LENGTH <? String.length message); [apply keeps_mret |].
    apply keeps_bind; [apply Hgw |]. intros [response_text is_cv_query].
    apply keeps_mret.
  - intros e. destruct (is_ValueError e);
      (apply keeps_bind; [apply keeps_logger_error | intros; apply keeps_mret]).
Qed.

(** The reset handler deletes at most one session. *)
Lemma keeps_reset_chat (r : request) :
  (forall h key, P h -> P (delete key h)) -> keeps P (reset_chat r).
Proof.
  intros Hdel. apply keeps_try_except.
  - apply keeps_bind.
    { destruct (is_json r); [apply keeps_request_json | apply keeps_mret]. }
    intros data. apply keeps_bind; [apply keeps_lift |]. intros session_id.
    apply keeps_bind; [apply keeps_lift |]. intros key.
    intros [h cv sent log] H. unfold_M. destruct (h !! key); cbn.
    + now apply Hdel.
    + exact H.
  - intros e. apply keeps_bind; [apply keeps_logger_error | intros; apply keeps_mret].
Qed.

(** A property kept by the gateway and by deletion holds after every
    request. *)
Lemma keeps_serve DEBUG (c : call) (w : world) :
  (forall groq message session_id, keeps P (chat_with_groq groq message session_id)) ->
  (forall h key, P h -> P (delete key h)) ->
  P (conversation_history w) -> P (conversation_history (serve DEBUG w c)).
Proof.
  intros Hgw Hdel H. destruct c as [file groq r | file r | file]; cbn [serve].
  - apply (keeps_bind (before_first_request file) (fun _ => chat DEBUG groq r));
      [apply keeps_before_first_request | intros _; now apply keeps_chat | exact H].
  - apply (keeps_bind (before_first_request file) (fun _ => reset_chat r));
      [apply keeps_before_first_request | intros _; now apply keeps_reset_chat | exact H].
  - now apply keeps_before_first_request.
Qed.

Lemma keeps_run DEBUG (calls : list call) :
  (forall groq message session_id, keeps P (chat_with_groq groq message session_id)) ->
  (forall h key, P h -> P (delete key h)) ->
  P ∅ -> P (conversation_history (run DEBUG calls)).
Proof.
  intros Hgw Hdel H0. unfold run.
  assert (forall w, P (conversation_history w) ->
                    P (conversation_history (fold_left (serve DEBUG) calls w))) as G.
  { induction calls as [|c calls IH]; intros w H; cbn [fold_left]; [exact H |].
    apply IH. now apply keeps_serve. }
  apply G. exact H0.
Qed.

End Keeps.

(** ** Pairs of turns *)

(** Induction over a list two items at a time. *)
Lemma pair_ind {A} (Q : list A -> Prop) :
  Q [] -> (forall x, Q [x]) -> (forall x y l, Q l -> Q (x :: y :: l)) ->
  forall l, Q l.
Proof.
  intros H0 H1 H2.
  assert (forall l, Q l /\ forall x, Q (x :: l)) as H.
  { induction l as [|y l [IH1 IH2]]; split; auto. }
  intros l. apply H.
Qed.

Lemma paired_cons2 (u a : Turn) (rest : list Turn) :
  paired (u :: a :: rest) = true <->
  role u = user /\ role a = assistant /\ paired rest = true.
Proof.
  cbn [paired]. destruct (role u), (role a); split;
    try discriminate; try tauto; intros [? [? ?]]; discriminate.
Qed.

Lemma paired_app (l k : list Turn) :
  paired l = true -> paired k = true -> paired (l ++ k) = true.
Proof.
  intros Hl Hk. revert Hl. induction l as [| x | x y l IH] using pair_ind.
  - intros _. exact Hk.
  - discriminate.
  - rewrite paired_cons2. intros [Hx [Hy Hrest]].
    change ((x :: y :: l) ++ k) with (x :: y :: (l ++ k)).
    rewrite paired_cons2. auto.
Qed.

Lemma paired_length (l : list Turn) :
  paired l = true -> exists n, length l = 2 * n.
Proof.
  induction l as [| x | x y l IH] using pair_ind.
  - intros _. now exists 0.
  - discriminate.
  - rewrite paired_cons2. intros [_ [_ Hrest]].
    destruct (IH Hrest) as [n Hn]. exists (S n). cbn [length]. lia.
Qed.

Lemma paired_drop (l : list Turn) (n : nat) :
  paired l = true -> paired (drop (2 * n) l) = true.
Proof.
  revert l. induction n as [|n IH]; intros l Hl; [exact Hl |].
  replace (2 * S n) with (S (S (2 * n))) by lia.
  destruct l as [|x [|y l]]; [reflexivity | discriminate |].
  apply paired_cons2 in Hl as [_ [_ Hrest]]. cbn [drop]. now apply IH.
Qed.

(** Cutting a paired list to its last ten turns removes whole pairs. *)
Lemma paired_slice_last_10 (l : list Turn) :
  paired l = true -> paired (slice_last 10 l) = true.
Proof.
  intros Hl. destruct (paired_length l Hl) as [n Hn].
  unfold slice_last. replace (length l - 10) with (2 * (n - 5)) by lia.
  now apply paired_drop.
Qed.

(** In a paired list the turns at even positions are the user's and those at
    odd positions the assistant's. *)
Lemma paired_roles (l : list Turn) :
  paired l = true ->
  forall i t, l !! i = Some t -> role t = if Nat.even i then user else assistant.
Proof.
  induction l as [| x | x y l IH] using pair_ind.
  - intros _ i t H. destruct i; discriminate.
  - discriminate.
  - rewrite paired_cons2. intros [Hx [Hy Hrest]] i t H.
    destruct i as [|[|i]]; cbn in H.
    + now injection H as <-.
    + now injection H as <-.
    + change (Nat.even (S (S i))) with (Nat.even i). now apply IH.
Qed.

(** ** The history invariant *)

Lemma well_formed_empty : well_formed ∅.
Proof. intros key turns H. now rewrite lookup_empty in H. Qed.

Lemma well_formed_insert (h : gmap pykey (list Turn)) key (turns : list Turn) :
  well_formed h -> paired turns = true -> length turns <= 10 ->
  well_formed (<[key := turns]> h).
Proof.
  intros Hh Hp Hl k l. destruct (decide (key = k)) as [->|Hne].
  - rewrite lookup_insert_eq. intros H. injection H as <-. auto.
  - rewrite lookup_insert_ne by exact Hne. apply Hh.
Qed.

Lemma well_formed_delete (h : gmap pykey (list Turn)) key :
  well_formed h -> well_formed (delete key h).
Proof.
  intros Hh k l. destruct (decide (key = k)) as [->|Hne].
  - now rewrite lookup_delete_eq.
  - rewrite lookup_delete_ne by exact Hne. apply Hh.
Qed.

Lemma well_formed_stored (w : world) key :
  well_formed (conversation_history w) ->
  paired (stored_turns w key) = true /\ length (stored_turns w key) <= 10.
Proof.
  intros Hw. unfold stored_turns.
  destruct (conversation_history w !! key) as [old|] eqn:E; cbn [default].
  - now apply (Hw key).
  - split; [reflexivity | cbn; lia].
Qed.

(** One more pair, then the cut: at most twelve turns before the cut, a
    paired list of at most ten after it. *)
Lemma append_pair_well_formed (old : list Turn) (message : string) (a : json) :
  paired old = true -> length old <= 10 ->
  length (old ++ [mkTurn user (JStr message); mkTurn assistant a]) <= 12 /\
  paired (slice_last 10 (old ++ [mkTurn user (JStr message); mkTurn assistant a])) = true /\
  length (slice_last 10 (old ++ [mkTurn user (JStr message); mkTurn assistant a])) <= 10.
Proof.
  intros Hp Hl. split; [rewrite length_app; cbn; lia |]. split.
  - apply paired_slice_last_10, paired_app; [exact Hp | reflexivity].
  - rewrite length_slice_last. lia.
Qed.

Lemma chat_with_groq_well_formed groq message session_id :
  keeps well_formed (chat_with_groq groq message session_id).
Proof.
  intros w Hw. destruct (py_hash session_id) as [key|e] eqn:Hkey.
  - destruct (well_formed_stored w key Hw) as [Hp Hl].
    destruct (completion_of (groq (messages_for w message key))) as [a|] eqn:C.
    + rewrite (chat_with_groq_success _ _ _ _ _ _ Hkey C). cbn [snd conversation_history].
      destruct (append_pair_well_formed _ message a Hp Hl) as [_ [Hp' Hl']].
      now apply well_formed_insert.
    + destruct (chat_with_groq_failure _ message _ _ w Hkey C) as [e [log ->]].
      cbn [snd conversation_history]. now apply well_formed_insert.
  - now rewrite (chat_with_groq_unhashable _ _ _ _ _ Hkey).
Qed.

Lemma run_well_formed DEBUG (calls : list call) :
  well_formed (conversation_history (run DEBUG calls)).
Proof.
  apply keeps_run.
  - apply chat_with_groq_well_formed.
  - intros h key. apply well_formed_delete.
  - apply well_formed_empty.
Qed.

(** C2. After any sequence of requests no session holds more than ten turns;
    and a completed call stores, for its session, the turns it had followed
    by the new pair, cut from the front down to the last ten. *)
Theorem history_at_most_ten DEBUG (calls : list call) :
  (forall key turns,
     conversation_history (run DEBUG calls) !! key = Some turns ->
     length turns <= 10) /\
  (forall groq message session_id key a w,
     py_hash session_id = Return key ->
     completion_of (groq (messages_for w message key)) = Some a ->
     exists dropped,
       stored_turns w key ++ [mkTurn user (JStr message); mkTurn assistant a] =
         dropped ++ stored_turns (snd (chat_with_groq groq message session_id w)) key /\
       length (stored_turns (snd (chat_with_groq groq message session_id w)) key) =
         min 10 (length (stored_turns w key) + 2)).
Proof.
  split.
  - intros key turns H. now apply (run_well_formed DEBUG calls key turns).
  - intros groq message session_id key a w Hkey C.
    rewrite (chat_with_groq_success _ _ _ _ _ _ Hkey C).
    unfold stored_turns at 2 4. cbn [snd conversation_history].
    rewrite lookup_insert_eq. cbn [default id].
    pose (l := stored_turns w key ++ [mkTurn user (JStr message); mkTurn assistant a]).
    exists (take (length l - 10) l). fold l. split.
    + symmetry. apply slice_last_suffix.
    + rewrite length_slice_last. subst l. rewrite length_app. reflexivity.
Qed.

Lemma history_at_most_ten_witness :
  length (stored_turns (run false Sample.six_chats) (KStr "default")) <= 10 /\
  length (stored_turns
            (snd (chat_with_groq (Sample.groq_says "ok") "hello" (JStr "default")
                    (run false Sample.six_chats))) (KStr "default")) = 10.
Proof.
  destruct (history_at_most_ten false Sample.six_chats) as [H1 H2]. split.
  - apply (H1 (KStr "default")). vm_compute. reflexivity.
  - destruct (H2 (Sample.groq_says "ok") "hello" (JStr "default") (KStr "default")
                (JStr "ok") (run false Sample.six_chats) eq_refl eq_refl)
      as [dropped [_ H]].
    rewrite H. vm_compute. reflexivity.
Defined.

(** C9. After any sequence of requests every stored history has even length
    and alternates user, assistant, user, assistant, ...; a further pair makes
    at most twelve turns, and the cut to the last ten keeps the pairing. *)
Theorem history_alternates DEBUG (calls : list call) key turns :
  conversation_history (run DEBUG calls) !! key = Some turns ->
  paired turns = true /\
  (exists n, length turns = 2 * n) /\
  (forall i t, turns !! i = Some t ->
     role t = if Nat.even i then user else assistant) /\
  (forall message a,
     length (turns ++ [mkTurn user (JStr message); mkTurn assistant a]) <= 12 /\
     paired (slice_last 10
               (turns ++ [mkTurn user (JStr message); mkTurn assistant a])) = true).
Proof.
  intros H. destruct (run_well_formed DEBUG calls key turns H) as [Hp Hl].
  split; [exact Hp |]. split; [now apply paired_length |].
  split; [now apply paired_roles |].
  intros message a.
  destruct (append_pair_well_formed turns message a Hp Hl) as [H12 [Hp' _]]. auto.
Qed.

Lemma history_alternates_witness :
  exists turns,
    conversation_history (run false Sample.six_chats) !! KStr "default" = Some turns /\
    length turns = 10 /\ paired turns = true.
Proof.
  exists (stored_turns (run false Sample.six_chats) (KStr "default")).
  assert (conversation_history (run false Sample.six_chats) !! KStr "default" =
          Some (stored_turns (run false Sample.six_chats) (KStr "default"))) as H
    by (vm_compute; reflexivity).
  split; [exact H |]. split; [vm_compute; reflexivity |].
  exact (proj1 (history_alternates false Sample.six_chats (KStr "default") _ H)).
Defined.

(** ** The chat handler's rejections *)


(** A body announced as JSON that does not decode is answered with 500: the
    [BadRequest] that [request.json] raises is caught by the handler's
    [except Exception]. *)
Lemma chat_undecodable_body DEBUG groq (r : request) (w : world) :
  is_json r = true -> body r = None ->
  fst (chat DEBUG groq r w) =
    Return (ServerErrorBody (if DEBUG then Some BadRequest else None), 500%Z).
Proof.
  intros Hj Hb. unfold chat. unfold_M. rewrite Hj, Hb. reflexivity.
Qed.




(** ** Resetting a session *)

(** C8. A reset that names a session (the default one when the request is not
    JSON or its object has no session id) answers 200 with that session id,
    logs no error and leaves the history without that session; when the
    session was not stored, the world is unchanged. *)
Theorem reset_chat_spec (r : request) (w : world) (session_id : json) (key : pykey) :
  (is_json r = false /\ session_id = JStr "default") \/
  (exists fields,
     is_json r = true /\ body r = Some (JObj fields) /\
     session_id = default (JStr "default") (assoc "session_id" fields)) ->
  py_hash session_id = Return key ->
  fst (reset_chat r w) = Return (ResetBody session_id, 200%Z) /\
  conversation_history (snd (reset_chat r w)) = delete key (conversation_history w) /\
  conversation_history (snd (reset_chat r w)) !! key = None /\
  error_log (snd (reset_chat r w)) = error_log w /\
  (conversation_history w !! key = None -> snd (reset_chat r w) = w).
Proof.
  intros Hreq Hkey.
  assert (reset_chat r w =
          (Return (ResetBody session_id, 200%Z),
           match conversation_history w !! key with
           | Some _ => with_history w (delete key (conversation_history w))
           | None => w
           end)) as ->.
  { unfold reset_chat, py_get. destruct w as [h cv sent log]. unfold_M.
    destruct Hreq as [[Hj ->] | [fields [Hj [Hb ->]]]]; rewrite Hj.
    - cbn [assoc default id] in *. rewrite Hkey. now destruct (h !! key).
    - rewrite Hb. cbn [default id] in *. rewrite Hkey. now destruct (h !! key). }
  cbn [fst snd]. split; [reflexivity |].
  destruct (conversation_history w !! key) as [old|] eqn:E;
    cbn [with_history conversation_history error_log].
  - split; [reflexivity |]. split; [apply lookup_delete_eq |].
    split; [reflexivity | discriminate].
  - split; [symmetry; now apply delete_id |]. split; [exact E |].
    split; reflexivity.
Qed.

Lemma reset_chat_spec_witness :
  fst (reset_chat (Sample.about_session "nobody") (run false Sample.six_chats)) =
    Return (ResetBody (JStr "nobody"), 200%Z) /\
  snd (reset_chat (Sample.about_session "nobody") (run false Sample.six_chats)) =
    run false Sample.six_chats /\
  conversation_history
    (snd (reset_chat (Sample.about_session "default") (run false Sample.six_chats)))
    !! KStr "default" = None.
Proof.
  destruct (reset_chat_spec (Sample.about_session "nobody") (run false Sample.six_chats)
              (JStr "nobody") (KStr "nobody")) as [H1 [_ [_ [_ H2]]]].
  { right. exists [("session_id", JStr "nobody")]. repeat split. }
  { reflexivity. }
  destruct (reset_chat_spec (Sample.about_session "default") (run false Sample.six_chats)
              (JStr "default") (KStr "default")) as [_ [_ [H3 _]]].
  { right. exists [("session_id", JStr "default")]. repeat split. }
  { reflexivity. }
  split; [exact H1 |]. split; [| exact H3].
  apply H2. vm_compute. reflexivity.
Defined.

(** ** More on the classifier *)

Lemma lower_char_idem (c : ascii) :
  Text.lower_char (Text.lower_char c) = Text.lower_char c.
Proof. destruct c as [[] [] [] [] [] [] [] []]; reflexivity. Qed.

Lemma lower_idem (s : string) : Text.lower (Text.lower s) = Text.lower s.
Proof.
  induction s as [|c s IH]; [reflexivity |].
  cbn [Text.lower]. now rewrite lower_char_idem, IH.
Qed.

Lemma lower_append (a b : string) :
  Text.lower (a +:+ b) = Text.lower a +:+ Text.lower b.
Proof.
  induction a as [|c a IH]; [reflexivity |].
  rewrite TextFacts.append_cons. cbn [Text.lower].
  now rewrite IH, TextFacts.append_cons.
Qed.

(** The list of general-technical keywords has no say in the result: a
    message is classified as a CV question exactly when one of the CV
    keywords occurs in its lowercased text. *)
Theorem is_cv_question_iff_grounding (message : string) :
  is_cv_question message = true <-> grounding_present message.
Proof. rewrite is_cv_question_grounding. apply grounding_present_iff. Qed.

(** The classifier does not see the case of letters. *)
Theorem is_cv_question_lower (message : string) :
  is_cv_question (Text.lower message) = is_cv_question message.
Proof. rewrite !is_cv_question_grounding. now rewrite lower_idem. Qed.

(** Text around a CV question never turns it into a technical one, whatever
    is added before or after it. *)
Theorem is_cv_question_extend (before message after : string) :
  is_cv_question message = true ->
  is_cv_question (before +:+ message +:+ after) = true.
Proof.
  rewrite !is_cv_question_grounding, !grounding_present_iff.
  intros [kw [Hin Hsub]]. exists kw. split; [exact Hin |].
  rewrite !lower_append.
  now apply TextFacts.Substring_app_r, TextFacts.Substring_app_l.
Qed.

Lemma is_cv_question_extend_witness :
  is_cv_question ("Explain the algorithm. " +:+ "youth" +:+ " hostels") = true.
Proof.
  apply (is_cv_question_extend "Explain the algorithm. " "youth" " hostels").
  reflexivity.
Defined.

(** ** More on the prompt builder *)

Lemma append_cancel_r (a b r : string) : a +:+ r = b +:+ r -> a = b.
Proof.
  revert b. induction a as [|x a IH]; intros [|y b] H.
  - reflexivity.
  - apply (f_equal String.length) in H.
    rewrite TextFacts.append_nil, TextFacts.append_cons in H.
    cbn [String.length] in H. rewrite TextFacts.length_append in H. lia.
  - apply (f_equal String.length) in H.
    rewrite TextFacts.append_nil, TextFacts.append_cons in H.
    cbn [String.length] in H. rewrite TextFacts.length_append in H. lia.
  - rewrite !TextFacts.append_cons in H. injection H as -> H.
    now rewrite (IH b H).
Qed.

(** The technical prompt is returned only where the flag is off or no
    document is loaded: the grounded prompt is never mistaken for it. *)
Theorem create_system_prompt_technical_iff (cv : string) (is_cv_query : bool) :
  create_system_prompt cv is_cv_query = technical_prompt <->
  is_cv_query = false \/ cv = "".
Proof.
  unfold create_system_prompt. split.
  - destruct is_cv_query; [| now left].
    destruct cv as [|c cv]; [now right |]. cbn [andb truthy].
    intros H. now apply grounded_prompt_not_technical in H.
  - intros [-> | ->]; [reflexivity | now rewrite andb_false_r].
Qed.

(** For CV questions the prompt determines the document: two different
    documents never give the same prompt. *)
Theorem create_system_prompt_distinct (cv1 cv2 : string) :
  cv1 <> cv2 ->
  create_system_prompt cv1 true <> create_system_prompt cv2 true.
Proof.
  intros Hne H. apply Hne. revert H.
  unfold create_system_prompt. cbn [andb].
  destruct cv1 as [|c1 cv1], cv2 as [|c2 cv2]; cbn [truthy].
  - reflexivity.
  - intros H. symmetry in H. now apply grounded_prompt_not_technical in H.
  - intros H. now apply grounded_prompt_not_technical in H.
  - intros H. apply String.app_inj in H. now apply append_cancel_r in H.
Qed.

Lemma create_system_prompt_distinct_witness :
  create_system_prompt "Python developer" true <>
  create_system_prompt "Python developer, Lahore" true.
Proof.
  apply (create_system_prompt_distinct "Python developer" "Python developer, Lahore").
  discriminate.
Defined.

(** ** Stripping *)

Lemma rstrip_cons (c : ascii) (s : string) :
  Text.rstrip (String c s) =
    match Text.rstrip s with
    | EmptyString => if Text.isspace c then EmptyString else String c EmptyString
    | r => String c r
    end.
Proof. reflexivity. Qed.

Lemma rstrip_idem (s : string) : Text.rstrip (Text.rstrip s) = Text.rstrip s.
Proof.
  induction s as [|c s IH]; [reflexivity |].
  rewrite rstrip_cons. destruct (Text.rstrip s) as [|d r] eqn:E.
  - destruct (Text.isspace c) eqn:Hc; [reflexivity |].
    rewrite rstrip_cons. change (Text.rstrip "") with "". now rewrite Hc.
  - rewrite rstrip_cons. now rewrite IH.
Qed.

Lemma lstrip_head (s : string) :
  Text.lstrip s = "" \/
  exists c t, Text.lstrip s = String c t /\ Text.isspace c = false.
Proof.
  induction s as [|c s IH]; [now left |].
  cbn [Text.lstrip]. destruct (Text.isspace c) eqn:Hc; [exact IH |].
  right. now exists c, s.
Qed.

Lemma rstrip_head (c : ascii) (t : string) :
  Text.isspace c = false -> exists u, Text.rstrip (String c t) = String c u.
Proof.
  intros Hc. rewrite rstrip_cons. destruct (Text.rstrip t) as [|d r].
  - rewrite Hc. now exists "".
  - now exists (String d r).
Qed.

(** Stripping twice is stripping once. *)
Lemma strip_idem (s : string) : Text.strip (Text.strip s) = Text.strip s.
Proof.
  unfold Text.strip. destruct (lstrip_head s) as [-> | [c [t [-> Hc]]]].
  - reflexivity.
  - destruct (rstrip_head c t Hc) as [u Hu]. rewrite Hu.
    cbn [Text.lstrip]. rewrite Hc, <- Hu. apply rstrip_idem.
Qed.

(** ** The handlers, case by case *)

Lemma with_history_same (w : world) : with_history w (conversation_history w) = w.
Proof. now destruct w. Qed.

(** The hook leaves the world alone once a document is loaded; before that it
    loads the file, if there is one to read. *)
Lemma before_first_request_cases (file : cv_file) (w : world) :
  before_first_request file w =
    (Return (),
     if truthy (cv_content w) then w
     else match file with
          | NoFile => w
          | FileText s => with_cv_content w s
          | FileFails e => with_error w (ErrorLoadingCV e)
          end).
Proof.
  unfold before_first_request, load_cv_content, with_cv_content, with_error.
  destruct w as [h cv sent log]. unfold_M.
  destruct (truthy cv); [reflexivity |]. now destruct file.
Qed.

(** [chat] answers 400 and changes nothing, or fails before the gateway is
    reached, or hands a stripped, non-empty message of at most 2000
    characters to the gateway and answers from its result. *)
Lemma chat_cases DEBUG groq (r : request) (w : world) :
  (exists error, chat DEBUG groq r w = (Return (ErrorBody error, 400%Z), w)) \/
  (exists e, (e = BadRequest \/ e = AttributeError) /\
     chat DEBUG groq r w =
       (Return (failure_answer DEBUG e, 500%Z), with_error w (failure_record e))) \/
  (exists message session_id,
     accepted_message message /\
     chat DEBUG groq r w =
       chat_answer DEBUG session_id (chat_with_groq groq message session_id w)).
Proof.
  unfold chat, py_get, py_strip. destruct w as [h cv sent log]. unfold_M.
  destruct (is_json r); cbn [negb]; [| left; eauto].
  destruct (body r) as [data|]; [| right; left; exists BadRequest; auto].
  destruct data as [| | | | |fields];
    try (right; left; exists AttributeError; split; [auto | reflexivity]).
  destruct (default (JStr "") (assoc "message" fields)) as [| | |s| |];
    try (right; left; exists AttributeError; split; [auto | reflexivity]).
  destruct (Text.strip s) as [|c rest] eqn:Hs; cbn [truthy negb]; [left; eauto |].
  destruct (MAX_MESSAGE_LENGTH <? String.length (String c rest)) eqn:Hlen;
    [left; eauto |].
  right. right. exists (String c rest), (default (JStr "default") (assoc "session_id" fields)).
  split.
  - split; [discriminate |]. split; [now apply Nat.ltb_ge in Hlen |].
    rewrite <- Hs. apply strip_idem.
  - unfold chat_answer.
    destruct (chat_with_groq groq (String c rest) _ _) as [[[a b]|e] w'];
      [reflexivity |].
    unfold failure_answer, failure_record, with_error.
    destruct w' as [h' cv' sent' log']. now destruct (is_ValueError e).
Qed.

(** [reset_chat] answers 200 and leaves the history without the session it
    names, or answers 500 and only logs the error. *)
Lemma reset_chat_cases (r : request) (w : world) :
  (exists session_id key,
     py_hash session_id = Return key /\
     reset_chat r w =
       (Return (ResetBody session_id, 200%Z),
        match conversation_history w !! key with
        | Some _ => with_history w (delete key (conversation_history w))
        | None => w
        end)) \/
  (exists e,
     reset_chat r w = (Return (ExnBody e, 500%Z), with_error w (ErrorResettingChat e))).
Proof.
  unfold reset_chat, py_get, with_error. destruct w as [h cv sent log]. unfold_M.
  destruct (is_json r).
  - destruct (body r) as [data|]; [| right; now exists BadRequest].
    destruct data as [| | | | |fields]; try (right; now exists AttributeError).
    destruct (py_hash (default (JStr "default") (assoc "session_id" fields)))
      as [key|e] eqn:Hkey; [| right; now exists e].
    left. exists (default (JStr "default") (assoc "session_id" fields)), key.
    split; [exact Hkey |]. now destruct (h !! key).
  - left. exists (JStr "default"), (KStr "default"). split; [reflexivity |].
    cbn [assoc default id py_hash]. now destruct (h !! KStr "default").
Qed.

(** ** The document store *)

(** [load_cv_content] never raises. It reports success exactly when the file
    could be read, and then the document is the text of the file; otherwise
    the document stays what it was. The history is never touched. *)
Theorem load_cv_content_outcome (file : cv_file) (w : world) :
  exists loaded,
    fst (load_cv_content file w) = Return loaded /\
    (loaded = true -> exists s,
       file = FileText s /\ cv_content (snd (load_cv_content file w)) = s) /\
    (loaded = false ->
       (forall s, file <> FileText s) /\
       cv_content (snd (load_cv_content file w)) = cv_content w) /\
    conversation_history (snd (load_cv_content file w)) = conversation_history w.
Proof.
  unfold load_cv_content. destruct w as [h cv sent log]. unfold_M.
  destruct file as [|s|e]; cbn [fst snd].
  - exists false. repeat split; try discriminate.
  - exists true. repeat split; try discriminate. intros _. now exists s.
  - exists false. repeat split; try discriminate.
Qed.

Lemma chat_with_groq_cv_content groq message session_id (w : world) :
  cv_content (snd (chat_with_groq groq message session_id w)) = cv_content w.
Proof.
  destruct (py_hash session_id) as [key|e] eqn:Hkey.
  - destruct (completion_of (groq (messages_for w message key))) as [a|] eqn:C.
    + now rewrite (chat_with_groq_success _ _ _ _ _ _ Hkey C).
    + now destruct (chat_with_groq_failure _ message _ _ w Hkey C) as [e [log ->]].
  - now rewrite (chat_with_groq_unhashable _ _ _ _ _ Hkey).
Qed.

Lemma chat_cv_content DEBUG groq (r : request) (w : world) :
  cv_content (snd (chat DEBUG groq r w)) = cv_content w.
Proof.
  destruct (chat_cases DEBUG groq r w)
    as [[error ->] | [[e [_ ->]] | [message [session_id [_ ->]]]]];
    try reflexivity.
  pose proof (chat_with_groq_cv_content groq message session_id w) as H.
  unfold chat_answer.
  destruct (chat_with_groq groq message session_id w) as [[[a b]|e] w']; exact H.
Qed.

Lemma reset_chat_cv_content (r : request) (w : world) :
  cv_content (snd (reset_chat r w)) = cv_content w.
Proof.
  destruct (reset_chat_cases r w) as [[session_id [key [_ ->]]] | [e ->]];
    [| reflexivity].
  cbn [snd]. now destruct (conversation_history w !! key).
Qed.

Lemma serve_cv_content DEBUG (w : world) (c : call) :
  cv_content (serve DEBUG w c) =
  cv_content (snd (before_first_request
                     match c with
                     | PostChat file _ _ | PostReset file _ | OtherRequest file => file
                     end w)).
Proof.
  destruct c as [file groq r | file r | file]; cbn [serve];
    try reflexivity; unfold mbind, M_bind;
    rewrite before_first_request_cases; cbn [snd].
  - apply chat_cv_content.
  - apply reset_chat_cv_content.
Qed.

(** A document, once loaded, stays for the life of the process: no request
    of any kind, and no state of the CV file, changes a non-empty
    [cv_content]. *)
Theorem cv_content_frozen DEBUG (calls : list call) (w : world) :
  cv_content w <> "" ->
  cv_content (fold_left (serve DEBUG) calls w) = cv_content w.
Proof.
  revert w. induction calls as [|c calls IH]; intros w Hcv; [reflexivity |].
  cbn [fold_left].
  assert (cv_content (serve DEBUG w c) = cv_content w) as Hstep.
  { rewrite serve_cv_content, before_first_request_cases. cbn [snd].
    apply truthy_nonempty in Hcv. now rewrite Hcv. }
  rewrite IH; [exact Hstep | now rewrite Hstep].
Qed.

Lemma cv_content_frozen_witness :
  cv_content
    (fold_left (serve false)
       [OtherRequest (FileText "new text"); PostReset NoFile (mkRequest false None);
        PostChat (FileFails OSError) (Sample.groq_says "ok") (Sample.ask "hello")]
       (with_cv_content initial_world "old text")) = "old text".
Proof.
  apply (cv_content_frozen false _ (with_cv_content initial_world "old text")).
  discriminate.
Defined.

(** While no document is loaded, every request, whatever its route and
    whatever its answer, tries the file again: after the request the document
    is the text of the file if it could be read, and still empty if not. *)
Theorem serve_loads_document DEBUG (c : call) (w : world) (file : cv_file) :
  cv_content w = "" ->
  file = match c with
         | PostChat f _ _ | PostReset f _ | OtherRequest f => f
         end ->
  cv_content (serve DEBUG w c) =
    match file with
    | FileText s => s
    | NoFile | FileFails _ => ""
    end.
Proof.
  intros Hcv ->. rewrite serve_cv_content, before_first_request_cases, Hcv.
  cbn [truthy snd].
  destruct c as [file groq r | file r | file]; destruct file as [|s|e];
    cbn [with_cv_content with_error cv_content]; try exact Hcv; reflexivity.
Qed.

Lemma serve_loads_document_witness :
  cv_content (serve false initial_world
                (PostReset (FileText "Python developer") (mkRequest true None))) =
    "Python developer".
Proof.
  apply (serve_loads_document false
           (PostReset (FileText "Python developer") (mkRequest true None))
           initial_world (FileText "Python developer")); reflexivity.
Defined.

(** ** The gateway, mode by mode *)


Lemma stored_turns_insert_same (w w' : world) (key : pykey) :
  conversation_history w' = <[key := stored_turns w key]> (conversation_history w) ->
  forall k, stored_turns w' k = stored_turns w k.
Proof.
  intros H k. unfold stored_turns. rewrite H.
  destruct (decide (key = k)) as [->|Hne].
  - now rewrite lookup_insert_eq.
  - now rewrite lookup_insert_ne.
Qed.

(** A call that raises leaves the turns of every session as they were. *)
Lemma chat_with_groq_raise_frame groq message session_id (w w' : world) e :
  chat_with_groq groq message session_id w = (Raise e, w') ->
  forall k, stored_turns w' k = stored_turns w k.
Proof.
  intros Hrun. destruct (py_hash session_id) as [key|e0] eqn:Hkey.
  - destruct (completion_of (groq (messages_for w message key))) as [a|] eqn:C.
    { rewrite (chat_with_groq_success _ _ _ _ _ _ Hkey C) in Hrun. discriminate. }
    destruct (chat_with_groq_failure _ message _ _ w Hkey C) as [e1 [log Hfail]].
    rewrite Hfail in Hrun. injection Hrun as _ <-.
    now apply (stored_turns_insert_same w _ key).
  - rewrite (chat_with_groq_unhashable _ _ _ _ _ Hkey) in Hrun.
    now injection Hrun as _ <-.
Qed.

(** A call posts one message list, or none when the session id cannot be
    hashed. *)
Lemma chat_with_groq_posted groq message session_id (w : world) :
  posted (snd (chat_with_groq groq message session_id w)) = posted w \/
  exists m, posted (snd (chat_with_groq groq message session_id w)) = posted w ++ [m].
Proof.
  destruct (py_hash session_id) as [key|e] eqn:Hkey.
  - right. exists (messages_for w message key).
    destruct (completion_of (groq (messages_for w message key))) as [a|] eqn:C.
    + now rewrite (chat_with_groq_success _ _ _ _ _ _ Hkey C).
    + now destruct (chat_with_groq_failure _ message _ _ w Hkey C) as [e [log ->]].
  - left. now rewrite (chat_with_groq_unhashable _ _ _ _ _ Hkey).
Qed.

(** A call that returns has posted exactly one message list. *)
Lemma chat_with_groq_return_posted groq message session_id (w w' : world) res :
  chat_with_groq groq message session_id w = (Return res, w') ->
  exists m, posted w' = posted w ++ [m].
Proof.
  intros Hrun. destruct (py_hash session_id) as [key|e] eqn:Hkey.
  - destruct (completion_of (groq (messages_for w message key))) as [a|] eqn:C.
    + rewrite (chat_with_groq_success _ _ _ _ _ _ Hkey C) in Hrun.
      injection Hrun as _ <-. now exists (messages_for w message key).
    + destruct (chat_with_groq_failure _ message _ _ w Hkey C) as [e [log Hf]].
      rewrite Hf in Hrun. discriminate.
  - rewrite (chat_with_groq_unhashable _ _ _ _ _ Hkey) in Hrun. discriminate.
Qed.

(** ** What the chat handler answers *)

(** [chat] never raises. It answers 200, 400 or 500; a 400 leaves the world as
    it was, a 200 means exactly one request went to the completion endpoint,
    and any answer other than 200 leaves the turns of every session as they
    were. *)
Theorem chat_always_answers DEBUG groq (r : request) (w : world) :
  exists sent status,
    fst (chat DEBUG groq r w) = Return (sent, status) /\
    (status = 200%Z \/ status = 400%Z \/ status = 500%Z) /\
    (status = 400%Z -> snd (chat DEBUG groq r w) = w) /\
    (status = 200%Z ->
       exists m, posted (snd (chat DEBUG groq r w)) = posted w ++ [m]) /\
    (status <> 200%Z ->
       forall key, stored_turns (snd (chat DEBUG groq r w)) key = stored_turns w key).
Proof.
  destruct (chat_cases DEBUG groq r w)
    as [[error ->] | [[e [_ ->]] | [message [session_id [_ ->]]]]].
  - exists (ErrorBody error), 400%Z. cbn [fst snd]. repeat split; auto; discriminate.
  - exists (failure_answer DEBUG e), 500%Z. cbn [fst snd].
    repeat split; auto; discriminate.
  - destruct (chat_with_groq groq message session_id w) as [[[a b]|e] w'] eqn:Hrun;
      cbn [chat_answer fst snd].
    + eexists _, 200%Z. split; [reflexivity |]. split; [auto |].
      split; [discriminate |]. split; [| intros H; now destruct H].
      intros _. apply (chat_with_groq_return_posted _ _ _ _ _ _ Hrun).
    + exists (failure_answer DEBUG e), 500%Z. split; [reflexivity |].
      split; [auto |]. split; [discriminate |]. split; [discriminate |].
      intros _ key. apply (chat_with_groq_raise_frame _ _ _ _ _ _ Hrun).
Qed.

Section ValidRequest.
Context (DEBUG : bool) (groq : list Turn -> reply) (r : request) (w : world).
Context (fields : list (string * json)) (s : string) (key : pykey).
Hypothesis (Hjson : is_json r = true).
Hypothesis (Hbody : body r = Some (JObj fields)).
Hypothesis (Hmessage : assoc "message" fields = Some (JStr s)).
Hypothesis (Hnonempty : Text.strip s <> "").
Hypothesis (Hlength : String.length (Text.strip s) <= 2000).
Hypothesis (Hkey : py_hash (default (JStr "default") (assoc "session_id" fields)) = Return key).





End ValidRequest.




(** ** Sessions do not see each other *)

(** A call reads and writes the session it is given and no other: the turns
    stored under every other key are the same afterwards, whether the call
    returns or raises. *)
Theorem chat_with_groq_other_sessions groq message session_id (w : world) (k : pykey) :
  py_hash session_id <> Return k ->
  conversation_history (snd (chat_with_groq groq message session_id w)) !! k =
  conversation_history w !! k.
Proof.
  intros Hk. destruct (py_hash session_id) as [key|e] eqn:Hkey.
  - assert (key <> k) as Hne by congruence.
    destruct (completion_of (groq (messages_for w message key))) as [a|] eqn:C.
    + rewrite (chat_with_groq_success _ _ _ _ _ _ Hkey C). cbn [snd conversation_history].
      now rewrite lookup_insert_ne.
    + destruct (chat_with_groq_failure _ message _ _ w Hkey C) as [e [log ->]].
      cbn [snd conversation_history]. now rewrite lookup_insert_ne.
  - now rewrite (chat_with_groq_unhashable _ _ _ _ _ Hkey).
Qed.

Lemma chat_with_groq_other_sessions_witness :
  conversation_history
    (snd (chat_with_groq (Sample.groq_says "ok") "hello" (JStr "other")
            (run false Sample.six_chats))) !! KStr "default" =
  conversation_history (run false Sample.six_chats) !! KStr "default".
Proof.
  apply (chat_with_groq_other_sessions (Sample.groq_says "ok") "hello" (JStr "other")
           (run false Sample.six_chats) (KStr "default")).
  discriminate.
Defined.

(** ** More on reset *)

Lemma reset_chat_run (r : request) (w : world) (session_id : json) (key : pykey) :
  (is_json r = false /\ session_id = JStr "default") \/
  (exists fields,
     is_json r = true /\ body r = Some (JObj fields) /\
     session_id = default (JStr "default") (assoc "session_id" fields)) ->
  py_hash session_id = Return key ->
  reset_chat r w =
    (Return (ResetBody session_id, 200%Z),
     match conversation_history w !! key with
     | Some _ => with_history w (delete key (conversation_history w))
     | None => w
     end).
Proof.
  intros Hreq Hkey.
  unfold reset_chat, py_get. destruct w as [h cv sent log]. unfold_M.
  destruct Hreq as [[Hj ->] | [fields [Hj [Hb ->]]]]; rewrite Hj.
  - cbn [assoc default id] in *. rewrite Hkey. now destruct (h !! key).
  - rewrite Hb. cbn [default id] in *. rewrite Hkey. now destruct (h !! key).
Qed.

(** After a reset the next chat of that session starts from nothing: the
    message list it posts is the system prompt and the new message, with no
    earlier turn between them. *)
Theorem reset_then_chat_posts groq message (r : request) (w : world)
    (session_id : json) (key : pykey) :
  (is_json r = false /\ session_id = JStr "default") \/
  (exists fields,
     is_json r = true /\ body r = Some (JObj fields) /\
     session_id = default (JStr "default") (assoc "session_id" fields)) ->
  py_hash session_id = Return key ->
  posted (snd (chat_with_groq groq message session_id (snd (reset_chat r w)))) =
    posted w ++
    [[mkTurn system (JStr (create_system_prompt (cv_content w) (is_cv_question message)));
      mkTurn user (JStr message)]].
Proof.
  intros Hreq Hkey. rewrite (reset_chat_run r w session_id key Hreq Hkey). cbn [snd].
  set (w1 := match conversation_history w !! key with
             | Some _ => with_history w (delete key (conversation_history w))
             | None => w
             end).
  assert (stored_turns w1 key = [] /\ cv_content w1 = cv_content w /\
          posted w1 = posted w) as [Hs [Hcv Hp]].
  { unfold w1, stored_turns.
    destruct (conversation_history w !! key) as [old|] eqn:E.
    - cbn [with_history conversation_history cv_content posted].
      now rewrite lookup_delete_eq.
    - now rewrite E. }
  assert (messages_for w1 message key =
          [mkTurn system (JStr (create_system_prompt (cv_content w) (is_cv_question message)));
           mkTurn user (JStr message)]) as Hm.
  { unfold messages_for. now rewrite Hs, Hcv. }
  destruct (completion_of (groq (messages_for w1 message key))) as [a|] eqn:C.
  - rewrite (chat_with_groq_success _ _ _ _ _ _ Hkey C). cbn [snd posted].
    now rewrite Hm, Hp.
  - destruct (chat_with_groq_failure _ message _ _ w1 Hkey C) as [e [log ->]].
    cbn [snd posted]. now rewrite Hm, Hp.
Qed.

Lemma reset_then_chat_posts_witness :
  posted (snd (chat_with_groq (Sample.groq_says "ok") "hello" (JStr "default")
                 (snd (reset_chat (mkRequest false None) (run false Sample.six_chats))))) =
    posted (run false Sample.six_chats) ++
    [[mkTurn system (JStr technical_prompt); mkTurn user (JStr "hello")]].
Proof.
  apply (reset_then_chat_posts (Sample.groq_says "ok") "hello" (mkRequest false None)
           (run false Sample.six_chats) (JStr "default") (KStr "default")).
  - left. split; reflexivity.
  - reflexivity.
Defined.

(** [reset_chat] never raises and answers 200 or 500. It never adds or
    changes a turn: what is stored afterwards was stored before. On a 500
    the history is as it was and the error is logged once. *)
Theorem reset_chat_always_answers (r : request) (w : world) :
  exists sent status,
    fst (reset_chat r w) = Return (sent, status) /\
    (status = 200%Z \/ status = 500%Z) /\
    (forall k turns,
       conversation_history (snd (reset_chat r w)) !! k = Some turns ->
       conversation_history w !! k = Some turns) /\
    (status = 500%Z ->
       conversation_history (snd (reset_chat r w)) = conversation_history w /\
       exists e, error_log (snd (reset_chat r w)) = error_log w ++ [ErrorResettingChat e]).
Proof.
  destruct (reset_chat_cases r w) as [[session_id [key [_ ->]]] | [e ->]];
    cbn [fst snd].
  - exists (ResetBody session_id), 200%Z. split; [reflexivity |]. split; [auto |].
    split; [| discriminate]. intros k turns.
    destruct (conversation_history w !! key) as [old|] eqn:E; [| auto].
    cbn [with_history conversation_history].
    destruct (decide (key = k)) as [->|Hne].
    + now rewrite lookup_delete_eq.
    + now rewrite lookup_delete_ne.
  - exists (ExnBody e), 500%Z. split; [reflexivity |]. split; [auto |].
    split; [auto |]. intros _. split; [reflexivity | now exists e].
Qed.

(** ** Traffic to the completion endpoint *)

Lemma serve_posted DEBUG (w : world) (c : call) :
  length (posted (serve DEBUG w c)) <=
  length (posted w) + match c with PostChat _ _ _ => 1 | _ => 0 end.
Proof.
  assert (forall file, posted (snd (before_first_request file w)) = posted w) as Hhook.
  { intros file. rewrite before_first_request_cases. cbn [snd].
    destruct (truthy (cv_content w)); [reflexivity |]. now destruct file. }
  destruct c as [file groq r | file r | file]; cbn [serve];
    try (unfold mbind, M_bind; specialize (Hhook file);
         rewrite before_first_request_cases in *; cbn [snd] in *;
         set (w1 := if truthy (cv_content w) then w else _) in *).
  - destruct (chat_cases DEBUG groq r w1)
      as [[error ->] | [[e [_ ->]] | [message [session_id [_ ->]]]]]; cbn [snd].
    + rewrite Hhook. lia.
    + cbn [with_error posted]. rewrite Hhook. lia.
    + pose proof (chat_with_groq_posted groq message session_id w1) as Hp.
      unfold chat_answer.
      destruct (chat_with_groq groq message session_id w1) as [[[a b]|e] w']; cbn [snd] in *;
        cbn [with_error posted];
        (destruct Hp as [-> | [m ->]];
         [rewrite Hhook; lia | rewrite length_app, Hhook; cbn [length]; lia]).
  - destruct (reset_chat_cases r w1) as [[session_id [key [_ ->]]] | [e ->]]; cbn [snd].
    + destruct (conversation_history w1 !! key);
        cbn [with_history posted]; rewrite Hhook; lia.
    + cbn [with_error posted]. rewrite Hhook. lia.
  - rewrite Hhook. lia.
Qed.

(** The service sends at most one request to the completion endpoint per chat
    request, and none for any other request: nothing is retried. *)
Theorem upstream_requests_bounded DEBUG (calls : list call) :
  length (posted (run DEBUG calls)) <= chat_requests calls.
Proof.
  unfold run.
  assert (forall w, length (posted (fold_left (serve DEBUG) calls w)) <=
                    length (posted w) + chat_requests calls) as G.
  { induction calls as [|c calls IH]; intros w; cbn [fold_left chat_requests]; [lia |].
    specialize (IH (serve DEBUG w c)). pose proof (serve_posted DEBUG w c) as Hstep.
    destruct c; lia. }
  specialize (G initial_world). cbn [initial_world posted length] in G. lia.
Qed.

(** ** What is stored as a user turn *)







(** ** The read-only routes *)

(** [GET /health] and [GET /api/cv/info] always answer 200 and report the
    same document: the one already loaded, or else the text of the CV file
    if the hook can read it now, or else none. *)
Theorem health_and_cv_info (GROQ_API_KEY CV_FILE_PATH : string)
    (file : cv_file) (w : world) :
  let document :=
    if truthy (cv_content w) then cv_content w
    else match file with
         | FileText s => s
         | NoFile | FileFails _ => ""
         end in
  fst ((before_first_request file;; health_check GROQ_API_KEY) w) =
    Return ({| health_status := "healthy";
               api_key_set := truthy GROQ_API_KEY;
               health_cv_loaded := truthy document;
               health_cv_size := String.length document |}, 200%Z) /\
  fst ((before_first_request file;; get_cv_info CV_FILE_PATH) w) =
    Return (CvInfo (truthy document) (String.length document) CV_FILE_PATH, 200%Z).
Proof.
  intros document. subst document.
  unfold health_check, get_cv_info, mbind, M_bind.
  rewrite !before_first_request_cases.
  destruct w as [h cv sent log]. unfold_M.
  destruct cv as [|c cv]; cbn [truthy].
  - destruct file as [|s|e]; split; reflexivity.
  - split; reflexivity.
Qed.

(** ** The .env listing *)













(** ** Which sessions exist *)

(** A call never removes a session: afterwards the stored sessions are those
    stored before, and the session of the call, whether it completed or
    failed. *)
Theorem chat_with_groq_sessions groq message session_id key (w : world) :
  py_hash session_id = Return key ->
  dom (conversation_history (snd (chat_with_groq groq message session_id w))) =
  {[key]} ∪ dom (conversation_history w).
Proof.
  intros Hkey.
  destruct (completion_of (groq (messages_for w message key))) as [a|] eqn:C.
  - rewrite (chat_with_groq_success _ _ _ _ _ _ Hkey C). cbn [snd conversation_history].
    apply dom_insert_L.
  - destruct (chat_with_groq_failure _ message _ _ w Hkey C) as [e [log ->]].
    cbn [snd conversation_history]. apply dom_insert_L.
Qed.

Lemma chat_with_groq_sessions_witness :
  dom (conversation_history
         (snd (chat_with_groq (fun _ => NoResponse) "hello" (JNum 7)
                 (run false Sample.six_chats)))) =
  {[KInt 7]} ∪ dom (conversation_history (run false Sample.six_chats)).
Proof.
  apply (chat_with_groq_sessions (fun _ => NoResponse) "hello" (JNum 7) (KInt 7)
           (run false Sample.six_chats)).
  reflexivity.
Defined.


